(** * The picture import: [_import_picture_database.py]

    A shallow embedding of [ImportDatabase.get_worksheet_rows] and of the two
    module-level helpers [to_string] and [make_year_string], with the
    properties of the row derivation stated and proved over it.

    Modelling choices, all local to this file:
    - a cell of a worksheet row, an attribute of a Python object and an
      argument of a host call are dynamically typed; they are values of the
      inductive type [value] (None, str, int, float);
    - a Python float is represented by a signed decimal (sign, mantissa,
      number of decimals), the digits [str] would print; [round(x, 3)] rounds
      that decimal half-to-even;
    - the objects [picture] and [settings.pictureRecord] are mutable and
      shared; they are components of the explicit state [Env] that every
      statement of the loop body transforms;
    - the host module [vs] is an interface ([Class VectorScript]);
    - an exception leaves the loop: steps that can raise return [outcome]. *)

From Stdlib Require Import ZArith NArith String Ascii List Bool Lia.
From Stdlib Require Import DecimalString.
From stdpp Require Import base gmap strings.
Import ListNotations.

Local Open Scope string_scope.
Local Open Scope Z_scope.

(** ** Python values *)

(** A float, as the decimal [(-1)^fneg * fmant / 10^fscale]. The sign is kept
    apart from the magnitude so that [-0.0] exists, as it does in Python. *)
Record pyfloat := PyFloat { fneg : bool; fmant : N; fscale : nat }.

Inductive value :=
| VNone
| VStr (s : string)
| VInt (z : Z)
| VFloat (f : pyfloat).

(** What validation hands to [round]: an int or a float. *)
Inductive number :=
| NInt (z : Z)
| NFloat (f : pyfloat).

(** [v == "literal"]: a str equals only the same str. *)
Definition is_str (v : value) (lit : string) : bool :=
  match v with
  | VStr s => String.eqb s lit
  | _ => false
  end.

(** [v is not None] *)
Definition is_not_None (v : value) : bool :=
  match v with
  | VNone => false
  | _ => true
  end.

(** Truth value of an object in a condition ([if v:], [not v], [v and ...]). *)
Definition truthy (v : value) : bool :=
  match v with
  | VNone => false
  | VStr s => negb (String.eqb s "")
  | VInt z => negb (z =? 0)
  | VFloat f => negb (fmant f =? 0)%N
  end.

(** ** Rendering numbers: [str(int)], [str(float)], [round(x, 3)] *)

Definition str_int (z : Z) : string := NilZero.string_of_int (Z.to_int z).

Definition digit_char (d : N) : ascii := ascii_of_N (48 + d).

(** The [w] low decimal digits of [n], most significant first. *)
Fixpoint digits_fixed (w : nat) (n : N) (acc : string) : string :=
  match w with
  | O => acc
  | S w' => digits_fixed w' (n / 10)%N (String (digit_char (n mod 10)%N) acc)
  end.

Fixpoint strip_trailing_zeros (s : string) : string :=
  match s with
  | EmptyString => EmptyString
  | String c r =>
      match strip_trailing_zeros r with
      | EmptyString => if Ascii.eqb c "0" then EmptyString else String c EmptyString
      | r' => String c r'
      end
  end.

Definition pow10 (k : nat) : N := (10 ^ N.of_nat k)%N.

Definition sign_prefix (neg : bool) : string := if neg then "-" else "".

Definition str_nat2 (n : N) : string :=
  if (n <? 10)%N then "0" ++ str_int (Z.of_N n) else str_int (Z.of_N n).

(** [str(x)] for a float [x]: the shortest digits, positional with at least
    one decimal when the decimal point position [decpt] satisfies
    [-4 < decpt <= 16], exponent notation otherwise (CPython's [repr]). *)
Definition str_float (f : pyfloat) : string :=
  let m := fmant f in
  let p := pow10 (fscale f) in
  let ip := (m / p)%N in
  let frac := strip_trailing_zeros (digits_fixed (fscale f) (m mod p)%N "") in
  if (m =? 0)%N then sign_prefix (fneg f) ++ "0.0"
  else
    let all := str_int (Z.of_N m) in
    let decpt := (Z.of_nat (String.length all) - Z.of_nat (fscale f))%Z in
    if ((decpt <=? -4) || (16 <? decpt))%Z then
      let sig := strip_trailing_zeros all in
      let head := substring 0 1 sig in
      let tail := substring 1 (String.length sig - 1) sig in
      let ex := (decpt - 1)%Z in
      sign_prefix (fneg f) ++ head
        ++ (if String.eqb tail "" then "" else "." ++ tail)
        ++ "e" ++ (if (ex <? 0)%Z then "-" else "+") ++ str_nat2 (Z.abs_N ex)
    else
      sign_prefix (fneg f) ++ str_int (Z.of_N ip) ++ "."
        ++ (if String.eqb frac "" then "0" else frac).

(** [round(x, 3)] on a float: nearest multiple of 0.001, ties to even. In
    CPython a decimal that lies exactly half-way is decided by the binary
    value of the float; no statement of this file is about such a tie. *)
Definition round3_float (f : pyfloat) : pyfloat :=
  match (fscale f - 3)%nat with
  | O => f
  | k =>
      let p := pow10 k in
      let q := (fmant f / p)%N in
      let r := (fmant f mod p)%N in
      let up := ((p <? 2 * r) || ((2 * r =? p) && N.odd q))%N in
      PyFloat (fneg f) (if up then q + 1 else q)%N 3
  end.

(** [round(value, 3)]: an int is returned unchanged. *)
Definition round3 (n : number) : number :=
  match n with
  | NInt z => NInt z
  | NFloat f => NFloat (round3_float f)
  end.

Definition str_number (n : number) : string :=
  match n with
  | NInt z => str_int z
  | NFloat f => str_float f
  end.

(** [str(v)], which is also what ["{}".format(v)] inserts. *)
Definition py_str (v : value) : string :=
  match v with
  | VNone => "None"
  | VStr s => s
  | VInt z => str_int z
  | VFloat f => str_float f
  end.

(** [int(x)] on a float truncates toward zero. *)
Definition int_of_float (f : pyfloat) : Z :=
  let q := Z.of_N (fmant f / pow10 (fscale f))%N in
  if fneg f then (- q)%Z else q.

(** [math.modf(x)[0] == 0]: the fractional part is zero. *)
Definition frac_is_zero (f : pyfloat) : bool :=
  (fmant f mod pow10 (fscale f) =? 0)%N.

(** ** The module-level helpers *)

Definition make_year_string (source : value) : string :=
  match source with
  | VStr s => s
  | VFloat f => str_int (int_of_float f)
  | VInt z => str_int z
  | VNone => "Unknown"
  end.

(** [to_string] falls off its last branch ([assert True]) for anything that is
    not a str, an int or a float, and so returns None there. *)
Definition to_string (var : value) : value :=
  match var with
  | VStr s => VStr s
  | VInt z => VStr (str_int z)
  | VFloat f =>
      if frac_is_zero f then VStr (str_int (int_of_float f))
      else VStr (str_float f)
  | VNone => VNone
  end.

(** ** Objects

    A [PictureParameters] object is the map from its attribute names to their
    current values; [settings.pictureRecord] likewise. Reading an attribute
    applies the map, an assignment [obj.f = v] is [setattr]. *)

Inductive field :=
| pictureName
| withImage | imageWidth | imageHeight | imagePosition
| withFrame | frameWidth | frameHeight | frameThickness | frameDepth
| frameClass | frameTextureScale | frameTextureRotation
| withMatboard | windowWidth | windowHeight | matboardPosition
| matboardClass | matboardTextureScale | matboardTextureRotat
| withGlass | glassPosition | glassClass
| createSymbol | symbolFolder | pictureClass.

Inductive record_field :=
| imageSize | frameSize | windowSize
| artworkTitle | authorName | artworkCreationDate | artworkMedia
| roomLocation | artworkSource | registrationNumber | authorBirthCountry
| authorBirthDate | authorDeathDate | designNotes | exhibitionMedia.

#[global] Instance field_eq_dec : EqDecision field.
Proof. solve_decision. Defined.

#[global] Instance record_field_eq_dec : EqDecision record_field.
Proof. solve_decision. Defined.

Definition PictureParameters := field -> value.
Definition PictureRecord := record_field -> value.

Definition setattr {K : Type} `{EqDecision K} (obj : K -> value) (k : K) (v : value)
  : K -> value :=
  fun k' => if decide (k' = k) then v else obj k'.

(** ** Settings *)

(** The names of the selector attributes of [ImportSettings] that the loop
    reads. A selector is a str: ["-- Manual"], ["-- Don't Import"] or a
    column name. *)
Inductive selector_name :=
| imageTextureSelector
| withImageSelector | imageWidthSelector | imageHeightSelector
| imagePositionSelector
| withFrameSelector | frameWidthSelector | frameHeightSelector
| frameThicknessSelector | frameDepthSelector | frameClassSelector
| frameTextureScaleSelector | frameTextureRotationSelector
| withMatboardSelector | windowWidthSelector | windowHeightSelector
| matboardPositionSelector | matboardClassSelector
| matboardTextureScaleSelector | matboardTextureRotatSelector
| withGlassSelector | glassPositionSelector | glassClassSelector
| symbolFolderSelector | classClassPictureSelector
| metaArtworkTitleSelector | metaAuthorNameSelector
| metaArtworkCreationDateSelector | metaArtworkMediaSelector
| metaRoomLocationSelector | metaArtworkSourceSelector
| metaRegistrationNumberSelector | metaAuthorBirthCountrySelector
| metaAuthorBirthDateSelector | metaAuthorDeathDateSelector
| metaDesignNotesSelector | metaExhibitionMediaSelector.

#[global] Instance selector_name_eq_dec : EqDecision selector_name.
Proof. solve_decision. Defined.

(** [ImportSettings], as far as [get_worksheet_rows] reads it. The class is
    declared in [_import_settings.py], and [PictureParameters] in
    [_picture_settings.py]; what the loop needs of them is their attributes.
    [pictureParameters_frameThicknessSelector] is the attribute
    [frameThicknessSelector] of the object [settings.pictureParameters], which
    line 273 reads: [None] when that object has no such attribute. *)
Record Settings := {
  excelSheetName : string;
  selector : selector_name -> string;
  pictureParameters : PictureParameters;
  pictureParameters_frameThicknessSelector : option string;
  createMissingClasses : bool;
  symbolCreateSymbol : string;
  settings_symbolFolder : value;
  classAssignPictureClass : string;
  metaImportMetadata : string
}.

(** ** Rows *)

(** A fetched row maps the lower-cased column names to cells. pypyodbc's row
    answers [row[name]] through [dict.get]: a name that is no column gives
    None. *)
Definition row_get (row : gmap string value) (name : string) : value :=
  default VNone (row !! name).

Definition lower_ascii (c : ascii) : ascii :=
  let n := N_of_ascii c in
  if ((65 <=? n) && (n <=? 90))%N then ascii_of_N (n + 32) else c.

(** [s.lower()], on the ASCII letters. *)
Fixpoint lower (s : string) : string :=
  match s with
  | EmptyString => EmptyString
  | String c r => String (lower_ascii c) (lower r)
  end.

(** [c in string.whitespace]: space, tab, line feed, carriage return,
    vertical tab, form feed. *)
Definition is_whitespace (c : ascii) : bool :=
  let n := N_of_ascii c in
  ((n =? 32) || ((9 <=? n) && (n <=? 13)))%N.

(** [s.translate({ord(c): '_' for c in string.whitespace})] *)
Fixpoint translate_whitespace (s : string) : string :=
  match s with
  | EmptyString => EmptyString
  | String c r =>
      String (if is_whitespace c then "_"%char else c) (translate_whitespace r)
  end.

(** [s.replace("__", "_")]: one pass, left to right, over the occurrences
    that do not overlap. *)
Fixpoint replace_double_underscore (s : string) : string :=
  match s with
  | EmptyString => EmptyString
  | String c r =>
      match r with
      | String c' r' =>
          if (Ascii.eqb c "_" && Ascii.eqb c' "_")%bool
          then String "_" (replace_double_underscore r')
          else String c (replace_double_underscore r)
      | EmptyString => String c EmptyString
      end
  end.

(** ** The host module [vs]

    The calls the loop makes. [GetObject] returns a handle, 0 when nothing has
    the name; [NameClass] makes the named class the active one, creating it
    when it is missing; [ValidNumStr] returns the pair [(ok, number)].
    [ActiveClass_NameClass] is the one law the loop relies on. *)
Class VectorScript (VS : Type) := {
  ValidNumStr : string -> bool * option pyfloat;
  GetObject : VS -> value -> Z;
  ActiveClass : VS -> string;
  NameClass : VS -> value -> VS;
  ActiveClass_NameClass :
    forall (h : VS) (name : string), ActiveClass (NameClass h (VStr name)) = name
}.

Definition newline : string := String (ascii_of_N 10) EmptyString.

Inductive exn := AttributeError.

(** The four message buffers of the loop body. *)
Inductive buffer := image_buffer | frame_buffer | matboard_buffer | glass_buffer.

Section ImportDatabase.

Context {VS : Type} `{!VectorScript VS}.

(** ** State

    Everything a statement of the loop body can read or change: the one
    [picture] object created before the loop, the shared
    [settings.pictureRecord], the host document, the lines written to
    [log_file], and the five locals that every row resets. *)
Record Env := {
  picture : PictureParameters;
  pictureRecord : PictureRecord;
  host : VS;
  log_file : list string;
  image_message : string;
  frame_message : string;
  matboard_message : string;
  glass_message : string;
  valid_picture : bool
}.

Inductive outcome :=
| Ok (e : Env)
| Raise (x : exn) (e : Env).

Definition bind (o : outcome) (k : Env -> outcome) : outcome :=
  match o with
  | Ok e => k e
  | Raise x e => Raise x e
  end.

(** [picture.f = v] *)
Definition assign (f : field) (v : value) (e : Env) : Env :=
  {| picture := setattr (picture e) f v; pictureRecord := pictureRecord e;
     host := host e; log_file := log_file e;
     image_message := image_message e; frame_message := frame_message e;
     matboard_message := matboard_message e; glass_message := glass_message e;
     valid_picture := valid_picture e |}.

(** [self.settings.pictureRecord.f = v] *)
Definition assign_record (f : record_field) (v : value) (e : Env) : Env :=
  {| picture := picture e; pictureRecord := setattr (pictureRecord e) f v;
     host := host e; log_file := log_file e;
     image_message := image_message e; frame_message := frame_message e;
     matboard_message := matboard_message e; glass_message := glass_message e;
     valid_picture := valid_picture e |}.

Definition set_host (h : VS) (e : Env) : Env :=
  {| picture := picture e; pictureRecord := pictureRecord e;
     host := h; log_file := log_file e;
     image_message := image_message e; frame_message := frame_message e;
     matboard_message := matboard_message e; glass_message := glass_message e;
     valid_picture := valid_picture e |}.

(** [log_file.write(line)] *)
Definition write (line : string) (e : Env) : Env :=
  {| picture := picture e; pictureRecord := pictureRecord e;
     host := host e; log_file := (log_file e ++ [line])%list;
     image_message := image_message e; frame_message := frame_message e;
     matboard_message := matboard_message e; glass_message := glass_message e;
     valid_picture := valid_picture e |}.

(** [<buffer>_message += text] *)
Definition append_message (b : buffer) (text : string) (e : Env) : Env :=
  {| picture := picture e; pictureRecord := pictureRecord e;
     host := host e; log_file := log_file e;
     image_message :=
       match b with image_buffer => image_message e ++ text | _ => image_message e end;
     frame_message :=
       match b with frame_buffer => frame_message e ++ text | _ => frame_message e end;
     matboard_message :=
       match b with matboard_buffer => matboard_message e ++ text | _ => matboard_message e end;
     glass_message :=
       match b with glass_buffer => glass_message e ++ text | _ => glass_message e end;
     valid_picture := valid_picture e |}.

(** [valid_picture = False] *)
Definition invalidate (e : Env) : Env :=
  {| picture := picture e; pictureRecord := pictureRecord e;
     host := host e; log_file := log_file e;
     image_message := image_message e; frame_message := frame_message e;
     matboard_message := matboard_message e; glass_message := glass_message e;
     valid_picture := false |}.

(** Lines 186-190: the locals at the start of a row. *)
Definition reset_locals (e : Env) : Env :=
  {| picture := picture e; pictureRecord := pictureRecord e;
     host := host e; log_file := log_file e;
     image_message := ""; frame_message := "";
     matboard_message := ""; glass_message := "";
     valid_picture := true |}.

(** The text of buffer [b]. *)
Definition message (b : buffer) (e : Env) : string :=
  match b with
  | image_buffer => image_message e
  | frame_buffer => frame_message e
  | matboard_buffer => matboard_message e
  | glass_buffer => glass_message e
  end.

(** ** Resolving and validating a cell *)

Definition is_manual (s : Settings) (sel : selector_name) : bool :=
  String.eqb (selector s sel) "-- Manual".

(** [row[self.settings.<sel>.lower()]] *)
Definition column (s : Settings) (row : gmap string value) (sel : selector_name)
  : value :=
  row_get row (lower (selector s sel)).

(** The [if <sel> == "-- Manual": cell_value = <manual> else: cell_value =
    row[...]] of the detail fields. *)
Definition manual_or_column (s : Settings) (row : gmap string value)
    (sel : selector_name) (f : field) : value :=
  if is_manual s sel then pictureParameters s f else column s row sel.

(** [vs.ValidNumStr(cell_value) if isinstance(cell_value, str) else
    [True, cell_value]] *)
Definition validate (cell_value : value) : bool * option number :=
  match cell_value with
  | VStr text =>
      let '(valid, r) := ValidNumStr text in (valid, option_map NFloat r)
  | VInt z => (true, Some (NInt z))
  | VFloat f => (true, Some (NFloat f))
  | VNone => (true, None)
  end.

(** [valid and value is not None], with the value when it holds. *)
Definition validated (cell_value : value) : option number :=
  match validate cell_value with
  | (true, Some n) => Some n
  | _ => None
  end.

(** ["<label> ({})".format(cell_value)] *)
Definition format_message (label : string) (cell_value : value) : string :=
  label ++ " (" ++ py_str cell_value ++ ")".

(** The block repeated for every numeric detail field:
    [[
      valid, value = ...
      if valid and value is not None:
          picture.<target> = str(round(value, 3))
      else:
          <b>_message += "<label> ({})".format(cell_value)
          valid_picture = False
    ]] *)
Definition numeric_field (target : field) (b : buffer) (label : string)
    (cell_value : value) (e : Env) : Env :=
  match validated cell_value with
  | Some n => assign target (VStr (str_number (round3 n))) e
  | None => invalidate (append_message b (format_message label cell_value) e)
  end.

(** ** Presence flags *)

(** Lines 210, 336, 437:
    [cell_value and cell_value != "" and cell_value != "False" and
     cell_value != "No"] *)
Definition present_if_truthy (cell_value : value) : bool :=
  truthy cell_value && negb (is_str cell_value "")
  && negb (is_str cell_value "False") && negb (is_str cell_value "No").

(** Line 248: the same with [cell_value is not None] for the first conjunct. *)
Definition present_if_not_None (cell_value : value) : bool :=
  is_not_None cell_value && negb (is_str cell_value "")
  && negb (is_str cell_value "False") && negb (is_str cell_value "No").

Definition flag_text (b : bool) : value := VStr (if b then "True" else "False").

Definition presence_flag (sel : selector_name) (f : field)
    (present : value -> bool) (s : Settings) (row : gmap string value)
    (e : Env) : Env :=
  if is_manual s sel then assign f (pictureParameters s f) e
  else assign f (flag_text (present (column s row sel))) e.

(** ** The image section (lines 205-241) *)

Definition image_section (s : Settings) (row : gmap string value) (e : Env)
  : Env :=
  let e := presence_flag withImageSelector withImage present_if_truthy s row e in
  if is_str (picture e withImage) "True" then
    let e := numeric_field imageWidth image_buffer "- Invalid Image Width"
               (column s row imageWidthSelector) e in
    let e := numeric_field imageHeight image_buffer "- Invalid Image Height"
               (column s row imageHeightSelector) e in
    numeric_field imagePosition image_buffer "- Invalid Image Position"
      (manual_or_column s row imagePositionSelector imagePosition) e
  else e.

(** ** Class references *)

(** Lines 299-301: [active_class = vs.ActiveClass(); vs.NameClass(cell_value);
    vs.NameClass(active_class)]. *)
Definition create_class (cell_value : value) (h : VS) : VS :=
  let active_class := ActiveClass h in
  NameClass (NameClass h cell_value) (VStr active_class).

(** Lines 292-307 (frame) and 393-408 (matboard): the existence check is on
    the cell just read. *)
Definition class_field (sel : selector_name) (f : field) (b : buffer)
    (label : string) (s : Settings) (row : gmap string value) (e : Env) : Env :=
  if is_manual s sel then assign f (pictureParameters s f) e
  else
    let cell_value := column s row sel in
    let new_class := GetObject (host e) cell_value in
    if new_class =? 0 then
      if createMissingClasses s then
        assign f cell_value (set_host (create_class cell_value (host e)) e)
      else invalidate (append_message b (format_message label cell_value) e)
    else assign f cell_value e.

(** Lines 454-469: the glass class; the existence check is on
    [picture.glassClass], the attribute as it is before the assignment. *)
Definition glass_class_field (s : Settings) (row : gmap string value) (e : Env)
  : Env :=
  if is_manual s glassClassSelector then
    assign glassClass (pictureParameters s glassClass) e
  else
    let cell_value := column s row glassClassSelector in
    let new_class := GetObject (host e) (picture e glassClass) in
    if new_class =? 0 then
      if createMissingClasses s then
        assign glassClass cell_value
          (set_host (create_class cell_value (host e)) e)
      else
        invalidate
          (append_message glass_buffer
             (format_message "- No such Glass Class" cell_value) e)
    else assign glassClass cell_value e.

(** ** The frame section (lines 243-329) *)

(** Lines 270-273. With a column selector the key is read from
    [self.settings.pictureParameters.frameThicknessSelector]; when that
    attribute does not exist the read raises. *)
Definition frame_thickness_cell (s : Settings) (row : gmap string value)
  : option value :=
  if is_manual s frameThicknessSelector then
    Some (pictureParameters s frameThickness)
  else
    match pictureParameters_frameThicknessSelector s with
    | Some sel => Some (row_get row (lower sel))
    | None => None
    end.

Definition frame_section (s : Settings) (row : gmap string value) (e : Env)
  : outcome :=
  let e := presence_flag withFrameSelector withFrame present_if_not_None s row e in
  if is_str (picture e withFrame) "True" then
    let e := numeric_field frameWidth frame_buffer "- Invalid Frame Width"
               (column s row frameWidthSelector) e in
    let e := numeric_field frameHeight frame_buffer "- Invalid Frame Height"
               (column s row frameHeightSelector) e in
    match frame_thickness_cell s row with
    | None => Raise AttributeError e
    | Some cell_value =>
        let e := numeric_field frameThickness frame_buffer
                   "- Invalid Frame Thickness" cell_value e in
        let e := numeric_field frameDepth frame_buffer "- Invalid Frame Depth"
                   (manual_or_column s row frameDepthSelector frameDepth) e in
        let e := class_field frameClassSelector frameClass frame_buffer
                   "- No such Frame Class" s row e in
        let e := numeric_field frameTextureScale frame_buffer
                   "- Invalid Frame Texture Scale"
                   (manual_or_column s row frameTextureScaleSelector
                      frameTextureScale) e in
        Ok (numeric_field frameTextureRotation frame_buffer
              "- Invalid Frame Texture Rotation"
              (manual_or_column s row frameTextureRotationSelector
                 frameTextureRotation) e)
    end
  else Ok e.

(** ** The matboard section (lines 331-430) *)

(** Lines 358-368 and 370-380: a window size that does not validate is taken
    from the image when there is one. *)
Definition window_field (target source : field) (info label : string)
    (cell_value : value) (e : Env) : Env :=
  match validated cell_value with
  | Some n => assign target (VStr (str_number (round3 n))) e
  | None =>
      if is_str (picture e withImage) "True" then
        append_message matboard_buffer info (assign target (picture e source) e)
      else
        invalidate
          (append_message matboard_buffer (format_message label cell_value) e)
  end.

Definition window_width_field (s : Settings) (row : gmap string value)
    (e : Env) : Env :=
  window_field windowWidth imageWidth
    "- Missing window width, using image width instead"
    "- Invalid Window Width" (column s row windowWidthSelector) e.

Definition window_height_field (s : Settings) (row : gmap string value)
    (e : Env) : Env :=
  window_field windowHeight imageHeight
    "- Missing window height, using image height instead"
    "- Invalid Window Height" (column s row windowHeightSelector) e.

(** Lines 382-430: what follows the window size. *)
Definition matboard_details (s : Settings) (row : gmap string value) (e : Env)
  : Env :=
  let e := numeric_field matboardPosition matboard_buffer
             "- Invalid Matboard Position"
             (manual_or_column s row matboardPositionSelector matboardPosition)
             e in
  let e := class_field matboardClassSelector matboardClass matboard_buffer
             "- No such Matboard Class" s row e in
  let e := numeric_field matboardTextureScale matboard_buffer
             "- Invalid Matboard Texture Scale"
             (manual_or_column s row matboardTextureScaleSelector
                matboardTextureScale) e in
  numeric_field matboardTextureRotat matboard_buffer
    "- Invalid Matboard Texture Rotation"
    (manual_or_column s row matboardTextureRotatSelector matboardTextureRotat)
    e.

Definition matboard_section (s : Settings) (row : gmap string value) (e : Env)
  : Env :=
  let e := presence_flag withMatboardSelector withMatboard present_if_truthy
             s row e in
  if is_str (picture e withMatboard) "True" then
    let e := numeric_field frameWidth frame_buffer
               "- Invalid Frame Width (needed for Matboard)"
               (column s row frameWidthSelector) e in
    let e := numeric_field frameHeight frame_buffer
               "- Invalid Frame Height (needed for Matboard)"
               (column s row frameHeightSelector) e in
    let e := window_width_field s row e in
    let e := window_height_field s row e in
    matboard_details s row e
  else e.

(** ** The glass section (lines 432-469) *)

Definition glass_section (s : Settings) (row : gmap string value) (e : Env)
  : Env :=
  let e := presence_flag withGlassSelector withGlass present_if_truthy s row e in
  if is_str (picture e withGlass) "True" then
    let e := numeric_field glassPosition glass_buffer "- Invalid Glass Position"
               (manual_or_column s row glassPositionSelector glassPosition) e in
    glass_class_field s row e
  else e.

(** ** Symbol and class information (lines 471-490) *)

(** [folder_name.translate(...)] needs a str: a number that is not zero
    passes [if folder_name:] and then has no [translate]. *)
Definition symbol_section (s : Settings) (row : gmap string value) (e : Env)
  : outcome :=
  if String.eqb (symbolCreateSymbol s) "True" then
    let e := assign createSymbol (VStr "True") e in
    if is_manual s symbolFolderSelector then
      Ok (assign symbolFolder (settings_symbolFolder s) e)
    else
      let folder_name := column s row symbolFolderSelector in
      if truthy folder_name then
        match folder_name with
        | VStr text =>
            Ok (assign symbolFolder
                  (VStr (replace_double_underscore (translate_whitespace text)
                         ++ " Folder")) e)
        | _ => Raise AttributeError e
        end
      else Ok e
  else
    Ok (assign symbolFolder (VStr "") (assign createSymbol (VStr "False") e)).

Definition class_section (s : Settings) (row : gmap string value) (e : Env)
  : Env :=
  if String.eqb (classAssignPictureClass s) "True" then
    assign pictureClass
      (manual_or_column s row classClassPictureSelector pictureClass) e
  else e.

(** ** Metadata (lines 492-525) *)

Definition dont_import (s : Settings) (sel : selector_name) : bool :=
  String.eqb (selector s sel) "-- Don't Import".

(** ["Height: {}, Width: {}".format(h, w)] *)
Definition format_size (h w : value) : value :=
  VStr ("Height: " ++ py_str h ++ ", Width: " ++ py_str w).

(** [if <sel> != "-- Don't Import": self.settings.pictureRecord.<f> = row[...]] *)
Definition import_text (sel : selector_name) (f : record_field) (s : Settings)
    (row : gmap string value) (e : Env) : Env :=
  if dont_import s sel then e else assign_record f (column s row sel) e.

(** The same through [make_year_string]. *)
Definition import_year (sel : selector_name) (f : record_field) (s : Settings)
    (row : gmap string value) (e : Env) : Env :=
  if dont_import s sel then e
  else assign_record f (VStr (make_year_string (column s row sel))) e.

Definition metadata_sizes (e : Env) : Env :=
  let e :=
    if is_str (picture e withImage) "True" then
      assign_record imageSize
        (format_size (picture e imageHeight) (picture e imageWidth)) e
    else e in
  let e :=
    if is_str (picture e withFrame) "True"
       || is_str (picture e withMatboard) "True" then
      assign_record frameSize
        (format_size (picture e frameHeight) (picture e frameWidth)) e
    else e in
  if is_str (picture e withMatboard) "True" then
    assign_record windowSize
      (format_size (picture e windowHeight) (picture e windowWidth)) e
  else e.

Definition metadata_section (s : Settings) (row : gmap string value) (e : Env)
  : Env :=
  if String.eqb (metaImportMetadata s) "True" then
    let e := metadata_sizes e in
    let e := import_text metaArtworkTitleSelector artworkTitle s row e in
    let e := import_text metaAuthorNameSelector authorName s row e in
    let e := import_year metaArtworkCreationDateSelector artworkCreationDate
               s row e in
    let e := import_text metaArtworkMediaSelector artworkMedia s row e in
    let e := import_text metaRoomLocationSelector roomLocation s row e in
    let e := import_text metaArtworkSourceSelector artworkSource s row e in
    let e := import_text metaRegistrationNumberSelector registrationNumber
               s row e in
    let e := import_text metaAuthorBirthCountrySelector authorBirthCountry
               s row e in
    let e := import_year metaAuthorBirthDateSelector authorBirthDate s row e in
    let e := import_year metaAuthorDeathDateSelector authorDeathDate s row e in
    let e := import_text metaDesignNotesSelector designNotes s row e in
    import_text metaExhibitionMediaSelector exhibitionMedia s row e
  else e.

(** ** The end of the body (lines 527-531) *)

Definition error_line (picture_name : value) (e : Env) : string :=
  py_str picture_name ++ " * [Error]" ++ image_message e ++ frame_message e
  ++ matboard_message e ++ glass_message e ++ newline.

Definition report (picture_name : value) (e : Env) : Env :=
  if negb (valid_picture e) then
    assign pictureName (VStr "") (write (error_line picture_name e) e)
  else e.

(** ** One row *)

(** The [else] branch of line 199, for a row that has a name. The test on
    ["Caricature1"] (lines 202-203) only binds a local that nothing reads. *)
Definition named_row (s : Settings) (row : gmap string value)
    (picture_name : value) (e : Env) : outcome :=
  let e := assign pictureName picture_name e in
  let e := image_section s row e in
  bind (frame_section s row e) (fun e =>
  let e := matboard_section s row e in
  let e := glass_section s row e in
  bind (symbol_section s row e) (fun e =>
  let e := class_section s row e in
  let e := metadata_section s row e in
  Ok (report picture_name e))).

Definition name_not_found : string :=
  "UNKNOWN [Error] - Picture name not found" ++ newline.

(** One iteration of [for row in rows]: the records it yields, each as the
    [picture] object reads at that [yield], and how the iteration ends. A row
    without a name yields at line 198 and, after the [if], at line 533. *)
Definition row_step (s : Settings) (row : gmap string value) (e : Env)
  : list PictureParameters * outcome :=
  let e := reset_locals e in
  let name := column s row imageTextureSelector in
  let picture_name := to_string name in
  if negb (truthy picture_name) then
    let e := assign pictureName (VStr "") (write name_not_found e) in
    ([picture e; picture e], Ok e)
  else
    match named_row s row picture_name e with
    | Ok e' => ([picture e'], Ok e')
    | Raise x e' => ([], Raise x e')
    end.

(** The loop: the yields of all iterations in order, until the rows are
    exhausted or an iteration raises. *)
Fixpoint rows_loop (s : Settings) (rows : list (gmap string value)) (e : Env)
  : list PictureParameters * outcome :=
  match rows with
  | [] => ([], Ok e)
  | row :: rest =>
      match row_step s row e with
      | (ys, Ok e') =>
          let '(ys', o) := rows_loop s rest e' in ((ys ++ ys')%list, o)
      | (ys, Raise x e') => (ys, Raise x e')
      end
  end.

(** ** The generator

    [connected] is [self.connected]; [cursor] is what
    [self.workbook.cursor()] gave, with the rows [fetchall] returns; [e] holds
    the object [PictureParameters()] constructed at line 176 and the state of
    the collaborators. *)
Definition get_worksheet_rows (s : Settings) (connected : bool)
    (cursor : option (list (gmap string value))) (e : Env)
  : list PictureParameters * outcome :=
  if connected && negb (String.eqb (excelSheetName s) "") then
    match cursor with
    | Some rows => rows_loop s rows e
    | None => ([], Ok e)
    end
  else ([], Ok e).

End ImportDatabase.

Arguments Env VS : clear implicits.
Arguments outcome VS : clear implicits.

(** * The workbook: [connect] and the readers

    The ODBC driver is an interface. [driver_connect] is
    [pyodbc.connect(connection_string, autocommit=True)], with the message of
    the [pyodbc.Error] when it raises; [has_cursor] is the truth value of
    [workbook.cursor()]; [tables] and [columns] are the [table_name]s and
    [column_name]s the cursor lists; [execute] gives the rows of a query. A
    query that the driver refuses is not modelled. *)
Class Pyodbc (W : Type) := {
  driver_connect : string -> W + string;
  has_cursor : W -> bool;
  tables : W -> list string;
  columns : W -> string -> list string;
  execute : W -> string -> list (gmap string value)
}.

(** The attributes of [ImportSettings] that only the workbook methods read,
    beside [Settings]. *)
Record ExcelSettings := {
  import_settings : Settings;
  excelFileName : string;
  excelCriteriaSelector : string;
  excelCriteriaValue : string
}.

(** What a method gives back: a value, or an exception. *)
Inductive result (A : Type) :=
| Return (a : A)
| Raised (x : exn).

Arguments Return {A} a.
Arguments Raised {A} x.

Section Workbook.

Context {W : Type} `{!Pyodbc W}.

(** An [ImportDatabase] object: [self.connected], [self.workbook] (None
    before the first connection), and what the object has done to the world:
    the connections it closed and the alerts it showed. *)
Record Database := {
  connected : bool;
  workbook : option W;
  closed : list W;
  alerts : list (string * string)
}.

(** [__init__] *)
Definition new_database : Database :=
  {| connected := false; workbook := None; closed := []; alerts := [] |}.

Definition connection_string (file : string) : string :=
  "Driver={Microsoft Excel Driver (*.xls, *.xlsx, *.xlsm, *.xlsb)};DBQ="
  ++ file ++ ";ReadOnly=1;IMEX=1;".

(** Lines 55-57: [if self.connected: self.workbook.close();
    self.connected = False]. [close] on None raises. *)
Definition disconnect (db : Database) : result Database :=
  if connected db then
    match workbook db with
    | Some w =>
        Return {| connected := false; workbook := workbook db;
                  closed := (closed db ++ [w])%list; alerts := alerts db |}
    | None => Raised AttributeError
    end
  else Return db.

(** Lines 59-92: the connection attempt. *)
Definition reconnect (x : ExcelSettings) (db : Database) : Database :=
  if negb (String.eqb (excelFileName x) "") then
    match driver_connect (connection_string (excelFileName x)) with
    | inl w =>
        {| connected := true; workbook := Some w; closed := closed db;
           alerts := alerts db |}
    | inr message =>
        {| connected := connected db; workbook := workbook db;
           closed := closed db;
           alerts := (alerts db ++ [(message, "Talk to Carlos")])%list |}
    end
  else db.

(** [connect]: the object afterwards and the bool returned. *)
Definition connect (x : ExcelSettings) (db : Database)
  : result (Database * bool) :=
  match disconnect db with
  | Return db1 => let db2 := reconnect x db1 in Return (db2, connected db2)
  | Raised e => Raised e
  end.

(** [self.workbook.cursor()] followed by [if cursor:]: the workbook when the
    cursor is usable. On None the attribute read raises. *)
Definition with_cursor {A : Type} (db : Database) (none : A) (k : W -> A)
  : result A :=
  match workbook db with
  | Some w => Return (if has_cursor w then k w else none)
  | None => Raised AttributeError
  end.

Definition get_worksheets (db : Database) : result (option (list string)) :=
  if connected db then with_cursor db None (fun w => Some (tables w))
  else Return None.

Definition sheet_selected (x : ExcelSettings) (db : Database) : bool :=
  connected db && negb (String.eqb (excelSheetName (import_settings x)) "").

(** The columns come back reversed. *)
Definition get_columns (x : ExcelSettings) (db : Database)
  : result (option (list string)) :=
  if sheet_selected x db then
    with_cursor db None
      (fun w => Some (rev (columns w (excelSheetName (import_settings x)))))
  else Return None.

(** ['SELECT DISTINCT [{}] FROM [{}];'] *)
Definition criteria_query (x : ExcelSettings) : string :=
  "SELECT DISTINCT [" ++ excelCriteriaSelector x ++ "] FROM ["
  ++ excelSheetName (import_settings x) ++ "];".

Definition get_criteria_values (x : ExcelSettings) (db : Database)
  : result (option (list value)) :=
  if sheet_selected x db then
    with_cursor db None
      (fun w =>
         Some (map (fun row => row_get row (lower (excelCriteriaSelector x)))
                 (execute w (criteria_query x))))
  else Return None.

(** ['SELECT * FROM [{}] WHERE [{}] = \'{}\';'], the query of both
    [get_worksheet_row_count] and [get_worksheet_rows]. *)
Definition rows_query (x : ExcelSettings) : string :=
  "SELECT * FROM [" ++ excelSheetName (import_settings x) ++ "] WHERE ["
  ++ excelCriteriaSelector x ++ "] = '" ++ excelCriteriaValue x ++ "';".

Definition get_worksheet_row_count (x : ExcelSettings) (db : Database)
  : result nat :=
  if sheet_selected x db then
    with_cursor db 0%nat (fun w => length (execute w (rows_query x)))
  else Return 0%nat.

(** [get_worksheet_rows] as the method of the object: the cursor and the
    fetched rows come from the workbook. *)
Definition worksheet_rows {VS : Type} `{!VectorScript VS} (x : ExcelSettings)
    (db : Database) (e : Env VS)
  : result (list PictureParameters * outcome VS) :=
  if sheet_selected x db then
    match workbook db with
    | Some w =>
        Return
          (get_worksheet_rows (import_settings x) true
             (if has_cursor w then Some (execute w (rows_query x)) else None) e)
    | None => Raised AttributeError
    end
  else Return (get_worksheet_rows (import_settings x) false None e).

End Workbook.

Arguments Database W : clear implicits.

(** ** A concrete host, for running the loop

    A document that knows a set of names and the active class, and that keeps
    the arguments of the [NameClass] calls made so far. The number parser
    accepts an optional sign, digits and at most one decimal point. *)
Module Document.

Record document := {
  names : gset string;
  active : string;
  named : list value
}.

Definition is_digit (c : ascii) : bool :=
  let n := N_of_ascii c in ((48 <=? n) && (n <=? 57))%N.

Fixpoint parse_digits (text : string) (mant : N) (scale : option nat)
    (seen : bool) : option (N * nat) :=
  match text with
  | EmptyString => if seen then Some (mant, default 0%nat scale) else None
  | String c r =>
      if is_digit c then
        parse_digits r (10 * mant + (N_of_ascii c - 48))%N (S <$> scale) true
      else if Ascii.eqb c "." then
        match scale with
        | None => parse_digits r mant (Some 0%nat) seen
        | Some _ => None
        end
      else None
  end.

Definition parse_number (text : string) : bool * option pyfloat :=
  let '(neg, body) :=
    match text with
    | String "-" r => (true, r)
    | String "+" r => (false, r)
    | _ => (false, text)
    end in
  match parse_digits body 0%N None false with
  | Some (m, k) => (true, Some (PyFloat neg m k))
  | None => (false, Some (PyFloat false 0 0))
  end.

Definition get_object (d : document) (name : value) : Z :=
  match name with
  | VStr n => if decide (n ∈ names d) then 1 else 0
  | _ => 0
  end.

Definition name_class (d : document) (name : value) : document :=
  match name with
  | VStr n =>
      {| names := {[n]} ∪ names d; active := n; named := named d ++ [name] |}
  | _ => {| names := names d; active := active d; named := named d ++ [name] |}
  end.

#[global] Instance document_vs : VectorScript document := {|
  ValidNumStr := parse_number;
  GetObject := get_object;
  ActiveClass := active;
  NameClass := name_class;
  ActiveClass_NameClass := fun _ _ => eq_refl
|}.

(** A new document: only the class ["None"], which is active. *)
Definition new_document : document :=
  {| names := {["None"]}; active := "None"; named := [] |}.

(** Settings in which every selector names the column of the same name
    without the suffix [Selector], nothing is manual and no option is on. *)
Definition column_names (sel : selector_name) : string :=
  match sel with
  | imageTextureSelector => "Name"
  | withImageSelector => "WithImage"
  | imageWidthSelector => "ImageWidth"
  | imageHeightSelector => "ImageHeight"
  | imagePositionSelector => "ImagePosition"
  | withFrameSelector => "WithFrame"
  | frameWidthSelector => "FrameWidth"
  | frameHeightSelector => "FrameHeight"
  | frameThicknessSelector => "-- Manual"
  | frameDepthSelector => "FrameDepth"
  | frameClassSelector => "FrameClass"
  | frameTextureScaleSelector => "FrameTextureScale"
  | frameTextureRotationSelector => "FrameTextureRotation"
  | withMatboardSelector => "WithMatboard"
  | windowWidthSelector => "WindowWidth"
  | windowHeightSelector => "WindowHeight"
  | matboardPositionSelector => "MatboardPosition"
  | matboardClassSelector => "MatboardClass"
  | matboardTextureScaleSelector => "MatboardTextureScale"
  | matboardTextureRotatSelector => "MatboardTextureRotat"
  | withGlassSelector => "WithGlass"
  | glassPositionSelector => "GlassPosition"
  | glassClassSelector => "GlassClass"
  | symbolFolderSelector => "Folder"
  | classClassPictureSelector => "Class"
  | metaArtworkTitleSelector => "Title"
  | metaAuthorNameSelector => "Author"
  | metaArtworkCreationDateSelector => "Created"
  | metaArtworkMediaSelector => "Media"
  | metaRoomLocationSelector => "Room"
  | metaArtworkSourceSelector => "Source"
  | metaRegistrationNumberSelector => "Registration"
  | metaAuthorBirthCountrySelector => "Country"
  | metaAuthorBirthDateSelector => "Born"
  | metaAuthorDeathDateSelector => "Died"
  | metaDesignNotesSelector => "Notes"
  | metaExhibitionMediaSelector => "Exhibition"
  end.

(** An object whose attributes are all the empty str. *)
Definition blank {K : Type} : K -> value := fun _ => VStr "".

Definition manual_values : PictureParameters :=
  setattr (setattr blank frameThickness (VStr "1")) imagePosition (VStr "0").

Definition settings (create_missing : bool) (metadata : string)
    (manual : PictureParameters) (sel : selector_name -> string) : Settings :=
  {| excelSheetName := "Pictures";
     selector := sel;
     pictureParameters := manual;
     pictureParameters_frameThicknessSelector := None;
     createMissingClasses := create_missing;
     symbolCreateSymbol := "False";
     settings_symbolFolder := VStr "";
     classAssignPictureClass := "False";
     metaImportMetadata := metadata |}.

Definition basic : Settings := settings false "False" manual_values column_names.

(** The state at the call: the object made by [PictureParameters()] (here
    with blank attributes), a blank [pictureRecord], a new document and an
    empty log. *)
Definition start (d : document) : Env document :=
  {| picture := blank; pictureRecord := blank; host := d; log_file := [];
     image_message := ""; frame_message := ""; matboard_message := "";
     glass_message := ""; valid_picture := true |}.

(** What a caller reads of a yielded record. *)
Definition shown (fs : list field) (p : PictureParameters) : list value :=
  map p fs.

End Document.

(** * The vocabulary of the statements *)

Section Vocabulary.

Context {VS : Type} `{!VectorScript VS}.

Implicit Types (e : Env VS) (s : Settings) (row : gmap string value)
  (f target : field) (b : buffer) (v cell : value).

(** The state an outcome ends in. *)
Definition final (o : outcome VS) : Env VS :=
  match o with
  | Ok e => e
  | Raise _ e => e
  end.

(** [touches fs e e']: outside the set [fs] the attributes of [picture] are in
    [e'] what they are in [e]. *)
Definition touches (fs : field -> bool) e e' : Prop :=
  forall f, fs f = false -> picture e' f = picture e f.

(** The attributes each section assigns. *)
Definition image_fields f : bool :=
  match f with
  | withImage | imageWidth | imageHeight | imagePosition => true
  | _ => false
  end.

Definition frame_fields f : bool :=
  match f with
  | withFrame | frameWidth | frameHeight | frameThickness | frameDepth
  | frameClass | frameTextureScale | frameTextureRotation => true
  | _ => false
  end.

Definition matboard_fields f : bool :=
  match f with
  | withMatboard | frameWidth | frameHeight | windowWidth | windowHeight
  | matboardPosition | matboardClass | matboardTextureScale
  | matboardTextureRotat => true
  | _ => false
  end.

Definition glass_fields f : bool :=
  match f with
  | withGlass | glassPosition | glassClass => true
  | _ => false
  end.

Definition symbol_fields f : bool :=
  match f with
  | createSymbol | symbolFolder => true
  | _ => false
  end.

Definition class_fields f : bool :=
  match f with
  | pictureClass => true
  | _ => false
  end.

Definition name_field f : bool :=
  match f with
  | pictureName => true
  | _ => false
  end.

Definition no_field f : bool := false.

(** The metadata section changes [settings.pictureRecord] and nothing else. *)
Definition record_only e e' : Prop :=
  picture e' = picture e /\ log_file e' = log_file e /\ host e' = host e
  /\ valid_picture e' = valid_picture e
  /\ forall b, message b e' = message b e.

(** [quiet e e']: nothing was written to the log and the metadata record is
    untouched. *)
Definition quiet e e' : Prop :=
  log_file e' = log_file e /\ pictureRecord e' = pictureRecord e.

(** The state in which the report of line 527 finds the row. *)
Definition before_report s row name e e8 : Prop :=
  exists e3 e6,
    frame_section s row (image_section s row (assign pictureName name e)) = Ok e3
    /\ symbol_section s row (glass_section s row (matboard_section s row e3))
       = Ok e6
    /\ e8 = metadata_section s row (class_section s row e6).

(** Every attribute that the sections after the image section can assign. *)
Definition later_fields f : bool :=
  frame_fields f || matboard_fields f || glass_fields f || symbol_fields f
  || class_fields f.

(** [not picture_name] at line 194. *)
Definition unnamed s row : bool :=
  negb (truthy (to_string (column s row imageTextureSelector))).

(** The set that holds the attribute [flag] only. *)
Definition is_flag (flag f : field) : bool := bool_decide (f = flag).

(** The detail attributes of each section, its flag left out. *)
Definition image_details f : bool :=
  match f with
  | imageWidth | imageHeight | imagePosition => true
  | _ => false
  end.

Definition frame_details f : bool :=
  match f with
  | frameWidth | frameHeight | frameThickness | frameDepth | frameClass
  | frameTextureScale | frameTextureRotation => true
  | _ => false
  end.

Definition matboard_details_fields f : bool :=
  match f with
  | frameWidth | frameHeight | windowWidth | windowHeight | matboardPosition
  | matboardClass | matboardTextureScale | matboardTextureRotat => true
  | _ => false
  end.

Definition glass_details f : bool :=
  match f with
  | glassPosition | glassClass => true
  | _ => false
  end.

(** The attributes a section with flag [flag] and details [details] may have
    assigned when it ends in [e']. *)
Definition section_fields (flag : field) (details : field -> bool) e' f : bool :=
  is_flag flag f || (details f && is_str (picture e' flag) "True").

(** [derived s p f]: in a row that ends with the record [p], attribute [f] is
    one the row may have assigned: the name, the flags, the symbol
    attributes, the details of the sections whose flag is ["True"] in [p], and
    the picture class when classes are assigned. *)
Definition derived s (p : PictureParameters) f : bool :=
  match f with
  | imageWidth | imageHeight | imagePosition => is_str (p withImage) "True"
  | frameWidth | frameHeight =>
      is_str (p withFrame) "True" || is_str (p withMatboard) "True"
  | frameThickness | frameDepth | frameClass | frameTextureScale
  | frameTextureRotation => is_str (p withFrame) "True"
  | windowWidth | windowHeight | matboardPosition | matboardClass
  | matboardTextureScale | matboardTextureRotat =>
      is_str (p withMatboard) "True"
  | glassPosition | glassClass => is_str (p withGlass) "True"
  | pictureClass => String.eqb (classAssignPictureClass s) "True"
  | _ => true
  end.

(** The attributes a row may assign: only the name when the row has none. *)
Definition assigned s row (p : PictureParameters) f : bool :=
  if unnamed s row then name_field f else derived s p f.

(** None, the empty str, ["False"] or ["No"]. *)
Definition falsy_text cell : Prop :=
  cell = VNone \/ cell = VStr "" \/ cell = VStr "False" \/ cell = VStr "No".

(** The int 0 or a float zero. *)
Definition zero_number cell : Prop :=
  cell = VInt 0 \/ exists x, cell = VFloat x /\ fmant x = 0%N.

(** The flag a column cell gives: ["False"] on the cells of [unset],
    ["True"] on all others. *)
Definition flag_rule (unset : value -> Prop) (cell flag : value) : Prop :=
  (unset cell /\ flag = VStr "False") \/ (~ unset cell /\ flag = VStr "True").

(** The four components of a picture, each with its flag and its selector. *)
Inductive component := Image | Frame | Matboard | Glass.

Definition flag_selector (c : component) : selector_name :=
  match c with
  | Image => withImageSelector
  | Frame => withFrameSelector
  | Matboard => withMatboardSelector
  | Glass => withGlassSelector
  end.

Definition flag_of (c : component) : field :=
  match c with
  | Image => withImage
  | Frame => withFrame
  | Matboard => withMatboard
  | Glass => withGlass
  end.

(** The state in which the section of a component ends. *)
Definition after_section (c : component) s row e : Env VS :=
  match c with
  | Image => image_section s row e
  | Frame => final (frame_section s row e)
  | Matboard => matboard_section s row e
  | Glass => glass_section s row e
  end.

(** The cells for which a component is switched off. *)
Definition unset_cell (c : component) cell : Prop :=
  match c with
  | Frame => falsy_text cell
  | _ => falsy_text cell \/ zero_number cell
  end.

(** [grows e e']: every message buffer of [e'] starts with that of [e], and
    a row that is invalid in [e] is invalid in [e']. *)
Definition grows e e' : Prop :=
  (valid_picture e = false -> valid_picture e' = false)
  /\ forall b, exists text, message b e' = message b e ++ text.

(** The two sizes of the matboard window and what belongs to each. *)
Inductive dimension := Width | Height.

Definition window_selector (d : dimension) : selector_name :=
  match d with Width => windowWidthSelector | Height => windowHeightSelector end.

Definition window_attr (d : dimension) : field :=
  match d with Width => windowWidth | Height => windowHeight end.

Definition image_attr (d : dimension) : field :=
  match d with Width => imageWidth | Height => imageHeight end.

Definition window_info (d : dimension) : string :=
  match d with
  | Width => "- Missing window width, using image width instead"
  | Height => "- Missing window height, using image height instead"
  end.

Definition window_label (d : dimension) : string :=
  match d with
  | Width => "- Invalid Window Width"
  | Height => "- Invalid Window Height"
  end.

(** Lines 358-368 for the width, 370-380 for the height. *)
Definition window_step (d : dimension) s row e : Env VS :=
  match d with
  | Width => window_width_field s row e
  | Height => window_height_field s row e
  end.

(** What the block does to a state [e] when the cell does not validate. *)
Definition window_fallback (d : dimension) s row e e' : Prop :=
  if is_str (picture e withImage) "True" then
    picture e' (window_attr d) = picture e (image_attr d)
    /\ matboard_message e' = matboard_message e ++ window_info d
    /\ image_message e' = image_message e
    /\ frame_message e' = frame_message e
    /\ glass_message e' = glass_message e
    /\ valid_picture e' = valid_picture e
  else
    picture e' = picture e
    /\ matboard_message e' =
         matboard_message e
         ++ format_message (window_label d) (column s row (window_selector d))
    /\ valid_picture e' = false.

(** The matboard attributes assigned after the window sizes. *)
Definition after_window f : bool :=
  match f with
  | matboardPosition | matboardClass | matboardTextureScale
  | matboardTextureRotat => true
  | _ => false
  end.

(** What follows the matboard section in a row. *)
Definition tail_fields f : bool :=
  glass_fields f || symbol_fields f || class_fields f || name_field f.

(** Line 273 reads an attribute that [settings.pictureParameters] lacks. *)
Definition frame_key_missing s : bool :=
  negb (is_manual s frameThicknessSelector)
  && match pictureParameters_frameThicknessSelector s with
     | None => true
     | Some _ => false
     end.

(** Line 479 calls [translate] on a number. *)
Definition folder_not_text s row : bool :=
  String.eqb (symbolCreateSymbol s) "True"
  && negb (is_manual s symbolFolderSelector)
  && truthy (column s row symbolFolderSelector)
  && match column s row symbolFolderSelector with
     | VStr _ => false
     | _ => true
     end.

(** The value of attribute [rf] of [settings.pictureRecord] after the
    metadata of a row, from the value [old] it had and the record [p] of the
    row. *)
Definition metadata_value s row (rf : record_field) (old : value)
    (p : PictureParameters) : value :=
  let text sel := if dont_import s sel then old else column s row sel in
  let year sel :=
    if dont_import s sel then old
    else VStr (make_year_string (column s row sel)) in
  match rf with
  | imageSize =>
      if is_str (p withImage) "True"
      then format_size (p imageHeight) (p imageWidth) else old
  | frameSize =>
      if is_str (p withFrame) "True" || is_str (p withMatboard) "True"
      then format_size (p frameHeight) (p frameWidth) else old
  | windowSize =>
      if is_str (p withMatboard) "True"
      then format_size (p windowHeight) (p windowWidth) else old
  | artworkTitle => text metaArtworkTitleSelector
  | authorName => text metaAuthorNameSelector
  | artworkCreationDate => year metaArtworkCreationDateSelector
  | artworkMedia => text metaArtworkMediaSelector
  | roomLocation => text metaRoomLocationSelector
  | artworkSource => text metaArtworkSourceSelector
  | registrationNumber => text metaRegistrationNumberSelector
  | authorBirthCountry => text metaAuthorBirthCountrySelector
  | authorBirthDate => year metaAuthorBirthDateSelector
  | authorDeathDate => year metaAuthorDeathDateSelector
  | designNotes => text metaDesignNotesSelector
  | exhibitionMedia => text metaExhibitionMediaSelector
  end.

(** [hosted s e e']: the host of [e'] has the active class of the host of
    [e], and is the host of [e] when missing classes are not created. *)
Definition hosted s e e' : Prop :=
  ActiveClass (host e') = ActiveClass (host e)
  /\ (createMissingClasses s = false -> host e' = host e).

(** [logged n e e']: the log of [e'] is the log of [e] followed by at most
    [n] lines. *)
Definition logged (n : nat) e e' : Prop :=
  exists lines,
    log_file e' = (log_file e ++ lines)%list /\ (length lines <= n)%nat.

(** [unrecorded s e e']: with the metadata import off, the metadata record
    of [e'] is that of [e]. *)
Definition unrecorded s e e' : Prop :=
  String.eqb (metaImportMetadata s) "True" = false ->
  pictureRecord e' = pictureRecord e.

(** The resolved frame flag is ["True"]: a function of the settings and the
    row. *)
Definition frame_on s row : bool :=
  if is_manual s withFrameSelector
  then is_str (pictureParameters s withFrame) "True"
  else present_if_not_None (column s row withFrameSelector).

(** The body of the loop raises on this row. *)
Definition raises s row : bool :=
  negb (unnamed s row)
  && ((frame_key_missing s && frame_on s row) || folder_not_text s row).

(** The rows the loop of [get_worksheet_rows] runs over: none without a
    connection, a sheet name or a cursor. *)
Definition fetched s (connected : bool) (cursor : option (list (gmap string value)))
  : list (gmap string value) :=
  if connected && negb (String.eqb (excelSheetName s) "")
  then default [] cursor else [].

(** [steady e e']: the validity flag and the messages of [e'] are those of
    [e]. *)
Definition steady e e' : Prop :=
  valid_picture e' = valid_picture e /\ forall b, message b e' = message b e.

(** The test of the flag of each component. *)
Definition present_test (c : component) : value -> bool :=
  match c with
  | Frame => present_if_not_None
  | _ => present_if_truthy
  end.

(** [t] has a whitespace character. *)
Fixpoint has_whitespace (t : string) : bool :=
  match t with
  | EmptyString => false
  | String c r => is_whitespace c || has_whitespace r
  end.

(** The name line 479 derives from the text of the folder cell, before the
    suffix. *)
Definition folder_name (text : string) : string :=
  replace_double_underscore (translate_whitespace text).

End Vocabulary.

Section WorkbookVocabulary.

Context {W : Type} `{!Pyodbc W}.

(** [live db]: an object that says it is connected has a workbook. *)
Definition live (db : Database W) : Prop :=
  connected db = true -> exists w, workbook db = Some w.

(** The rows the query of [rows_query] gives the two row methods: none
    unless the object is connected, a sheet is selected and the workbook
    gives a cursor. *)
Definition selected_rows (x : ExcelSettings) (db : Database W)
  : list (gmap string value) :=
  if sheet_selected x db then
    match workbook db with
    | Some w => if has_cursor w then execute w (rows_query x) else []
    | None => []
    end
  else [].

End WorkbookVocabulary.

(** * Runs of the loop on a concrete document *)

Module Runs.

Import Document.

Definition row_of (cells : list (string * value)) : gmap string value :=
  list_to_map cells.

(** [basic] with one selector changed. *)
Definition with_selector (sel : selector_name) (text : string)
    (base : selector_name -> string) : selector_name -> string :=
  fun x => if decide (x = sel) then text else base x.

(** The state a run ends in. *)
Definition last_state (r : list PictureParameters * outcome document)
  : Env document :=
  final (snd r).

Definition run (s : Settings) (rows : list (gmap string value)) (d : document)
  : list PictureParameters * outcome document :=
  get_worksheet_rows s true (Some rows) (start d).

(** A picture with an image 10.0 wide. *)
Definition mona : gmap string value :=
  row_of [("name", VStr "Mona"); ("withimage", VStr "Yes");
          ("imagewidth", VFloat (PyFloat false 100 1));
          ("imageheight", VInt 8); ("imageposition", VInt 0)].

(** A picture without an image. *)
Definition lisa : gmap string value :=
  row_of [("name", VStr "Lisa"); ("withimage", VStr "No")].

(** A row whose name cell is empty. *)
Definition nameless : gmap string value :=
  row_of [("name", VNone); ("withimage", VStr "Yes")].

(** One picture that sets each of the four flags to the int 0. *)
Definition zeros : gmap string value :=
  row_of [("name", VStr "Zero"); ("withimage", VInt 0); ("withframe", VInt 0);
          ("withmatboard", VInt 0); ("withglass", VInt 0)].

(** The image sizes of the three examples of the rendering, as floats and as
    text. *)
Definition sevens : gmap string value :=
  row_of [("name", VStr "Seven"); ("withimage", VStr "Yes");
          ("imagewidth", VFloat (PyFloat false 70 1));
          ("imageheight", VFloat (PyFloat false 7250 3));
          ("imageposition", VFloat (PyFloat false 71234567 7));
          ("withframe", VStr "Yes"); ("framewidth", VStr "7.0");
          ("frameheight", VInt 7); ("framedepth", VStr "7.1234567");
          ("frameclass", VStr "None"); ("frametexturescale", VInt 1);
          ("frametexturerotation", VInt 0)].

(** A matboard whose window width is not a number, around an image. *)
Definition matted : gmap string value :=
  row_of [("name", VStr "Matted"); ("withimage", VStr "Yes");
          ("imagewidth", VFloat (PyFloat false 125 1)); ("imageheight", VInt 8);
          ("imageposition", VInt 0);
          ("withmatboard", VStr "Yes"); ("framewidth", VInt 20);
          ("frameheight", VInt 16); ("windowwidth", VStr "n/a");
          ("windowheight", VInt 9); ("matboardposition", VInt 0);
          ("matboardclass", VStr "None"); ("matboardtexturescale", VInt 1);
          ("matboardtexturerotat", VInt 0)].

(** A picture under glass of class [glass]. *)
Definition glazed (name glass : string) : gmap string value :=
  row_of [("name", VStr name); ("withglass", VStr "Yes");
          ("glassposition", VInt 1); ("glassclass", VStr glass)].

(** A document that has the class ["Crystal"]. *)
Definition crystal_document : document :=
  {| names := {["None"; "Crystal"]}; active := "None"; named := [] |}.

(** Settings that create the classes that are missing. *)
Definition creating : Settings := settings true "False" manual_values column_names.


(** Settings that import the metadata. *)
Definition importing : Settings := settings false "True" manual_values column_names.

Definition titled (name title : string) (year : value) : gmap string value :=
  row_of [("name", VStr name); ("title", VStr title); ("created", year)].

(** States in the middle of a run. *)
Definition after_mona : Env document := last_state (run basic [mona] new_document).

Definition before_glass_class : Env document :=
  numeric_field glassPosition glass_buffer "- Invalid Glass Position" (VInt 1)
    (assign withGlass (VStr "True") (start crystal_document)).

Definition after_tinted : Env document :=
  numeric_field glassPosition glass_buffer "- Invalid Glass Position" (VInt 1)
    (assign withGlass (VStr "True")
       (reset_locals
          (last_state (run creating [glazed "Mona" "Tinted"] new_document)))).

Definition two_titles : list PictureParameters * outcome document :=
  rows_loop importing
    ([titled "A" "Dawn" (VFloat (PyFloat false 18895 1))]
     ++ [titled "B" "Dusk" VNone]) (start new_document).

(** A picture that has a name and nothing else. *)
Definition bare : gmap string value :=
  row_of [("name", VStr "Bare"); ("imagewidth", VStr "n/a")].

(** A frame of a class the document does not have. *)
Definition gilded : gmap string value :=
  row_of [("name", VStr "Gilded"); ("withframe", VStr "Yes");
          ("frameclass", VStr "Gilt")].

(** A picture with a symbol folder and a class. *)
Definition filed (name folder : string) (class : value) : gmap string value :=
  row_of [("name", VStr name); ("folder", VStr folder); ("class", class)].

Definition gallery_rows : list (gmap string value) := [mona; nameless; lisa].

(** Settings that read the frame thickness from a column. *)
Definition thickness_column : Settings :=
  settings false "False" manual_values
    (with_selector frameThicknessSelector "FrameThickness" column_names).

(** Settings that create symbols and assign the picture class. *)
Definition symbols : Settings :=
  {| excelSheetName := "Pictures";
     selector := column_names;
     pictureParameters := manual_values;
     pictureParameters_frameThicknessSelector := None;
     createMissingClasses := false;
     symbolCreateSymbol := "True";
     settings_symbolFolder := VStr "";
     classAssignPictureClass := "True";
     metaImportMetadata := "False" |}.

(** The state a row finds after a row that failed. *)
Definition after_failure : Env document :=
  append_message image_buffer "- Invalid Image Width (n/a)"
    (invalidate (start new_document)).

End Runs.

(** ** A concrete driver, for running the workbook methods

    A book of one sheet that answers every query with all its rows; the
    driver opens the file ["gallery.xlsx"] and no other. *)
Module Spreadsheet.

Import Document Runs.

Record book := {
  sheet : string;
  header : list string;
  body : list (gmap string value)
}.

Definition gallery : book :=
  {| sheet := "Pictures"; header := ["Name"; "WithImage"]; body := gallery_rows |}.

#[global] Instance book_driver : Pyodbc book := {|
  driver_connect c :=
    if String.eqb c (connection_string "gallery.xlsx") then inl gallery
    else inr "File not found";
  has_cursor _ := true;
  tables w := [sheet w];
  columns w name := if String.eqb name (sheet w) then header w else [];
  execute w _ := body w
|}.

Definition workbook_settings (file : string) : ExcelSettings :=
  {| import_settings := basic; excelFileName := file;
     excelCriteriaSelector := "Room"; excelCriteriaValue := "Hall" |}.

(** The object after [connect] on ["gallery.xlsx"]. *)
Definition opened : Database book :=
  {| connected := true; workbook := Some gallery; closed := []; alerts := [] |}.

(** The object after [connect] on a file the driver refuses. *)
Definition refused : Database book :=
  {| connected := false; workbook := None; closed := [];
     alerts := [("File not found", "Talk to Carlos")] |}.

End Spreadsheet.

(** * Properties *)

Section Properties.

Context {VS : Type} `{!VectorScript VS}.

Implicit Types (e : Env VS) (s : Settings) (row : gmap string value)
  (f target : field) (b : buffer) (v cell : value).

(** ** Which attributes a step can change *)

Lemma touches_refl fs e : touches fs e e.
Proof. intros f _. reflexivity. Qed.

Lemma touches_trans fs e1 e2 e3 :
  touches fs e1 e2 -> touches fs e2 e3 -> touches fs e1 e3.
Proof. intros H12 H23 f Hf. rewrite (H23 f Hf). apply (H12 f Hf). Qed.

Lemma touches_weaken (fs fs' : field -> bool) e e' :
  (forall f, fs f = true -> fs' f = true) -> touches fs e e' -> touches fs' e e'.
Proof.
  intros Hsub H f Hf. apply H.
  destruct (fs f) eqn:E; [|reflexivity].
  rewrite (Hsub f E) in Hf. discriminate.
Qed.

Lemma setattr_same {K : Type} `{EqDecision K} (obj : K -> value) k v :
  setattr obj k v k = v.
Proof. unfold setattr. destruct (decide (k = k)); congruence. Qed.

Lemma setattr_other {K : Type} `{EqDecision K} (obj : K -> value) k k' v :
  k' <> k -> setattr obj k v k' = obj k'.
Proof. intros Hne. unfold setattr. destruct (decide (k' = k)); congruence. Qed.

Lemma touches_assign fs f v e : fs f = true -> touches fs e (assign f v e).
Proof.
  intros Hf g Hg. cbn. apply setattr_other. intros ->. congruence.
Qed.

Lemma touches_append_message fs b text e : touches fs e (append_message b text e).
Proof. intros g _. reflexivity. Qed.

Lemma touches_invalidate fs e : touches fs e (invalidate e).
Proof. intros g _. reflexivity. Qed.

Lemma touches_set_host fs h e : touches fs e (set_host h e).
Proof. intros g _. reflexivity. Qed.

Lemma touches_numeric_field fs target b label cell e :
  fs target = true -> touches fs e (numeric_field target b label cell e).
Proof.
  intros Hf. unfold numeric_field. destruct (validated cell).
  - by apply touches_assign.
  - intros g _. reflexivity.
Qed.

Lemma touches_presence_flag fs sel f present s row e :
  fs f = true -> touches fs e (presence_flag sel f present s row e).
Proof.
  intros Hf. unfold presence_flag. destruct (is_manual s sel); by apply touches_assign.
Qed.

Lemma touches_class_field fs sel f b label s row e :
  fs f = true -> touches fs e (class_field sel f b label s row e).
Proof.
  intros Hf. unfold class_field.
  destruct (is_manual s sel); [by apply touches_assign|].
  destruct (_ =? 0).
  - destruct (createMissingClasses s).
    + intros g Hg. cbn. apply setattr_other. intros ->. congruence.
    + intros g _. reflexivity.
  - by apply touches_assign.
Qed.

Lemma touches_glass_class_field fs s row e :
  fs glassClass = true -> touches fs e (glass_class_field s row e).
Proof.
  intros Hf. unfold glass_class_field.
  destruct (is_manual s glassClassSelector); [by apply touches_assign|].
  destruct (_ =? 0).
  - destruct (createMissingClasses s).
    + intros g Hg. cbn. apply setattr_other. intros ->. congruence.
    + intros g _. reflexivity.
  - by apply touches_assign.
Qed.

Lemma touches_window_field fs target source info label cell e :
  fs target = true -> touches fs e (window_field target source info label cell e).
Proof.
  intros Hf. unfold window_field. destruct (validated cell).
  - by apply touches_assign.
  - destruct (is_str _ _).
    + intros g Hg. cbn. apply setattr_other. intros ->. congruence.
    + intros g _. reflexivity.
Qed.

Ltac touch_step :=
  first
    [ apply touches_numeric_field
    | apply touches_presence_flag
    | apply touches_class_field
    | apply touches_glass_class_field
    | apply touches_window_field
    | apply touches_assign ];
  reflexivity.

Ltac touch :=
  cbv zeta;
  repeat first
    [ apply touches_refl
    | eapply touches_trans; [|touch_step] ].

Lemma touches_image_section s row e :
  touches image_fields e (image_section s row e).
Proof.
  unfold image_section. destruct (is_str _ _); touch.
Qed.

Lemma touches_frame_section s row e :
  touches frame_fields e (final (frame_section s row e)).
Proof.
  unfold frame_section. destruct (is_str _ _); [|cbn; touch].
  destruct (frame_thickness_cell s row); cbn; touch.
Qed.

Lemma touches_matboard_section s row e :
  touches matboard_fields e (matboard_section s row e).
Proof.
  unfold matboard_section, matboard_details, window_width_field,
    window_height_field.
  destruct (is_str _ _); touch.
Qed.

Lemma touches_glass_section s row e :
  touches glass_fields e (glass_section s row e).
Proof.
  unfold glass_section. destruct (is_str _ _); touch.
Qed.

Lemma touches_symbol_section s row e :
  touches symbol_fields e (final (symbol_section s row e)).
Proof.
  unfold symbol_section.
  destruct (String.eqb _ _); [|cbn; touch].
  destruct (is_manual _ _); [cbn; touch|].
  destruct (truthy _); [|cbn; touch].
  destruct (column _ _ _); cbn; touch.
Qed.

Lemma touches_class_section s row e :
  touches class_fields e (class_section s row e).
Proof.
  unfold class_section. destruct (String.eqb _ _); touch.
Qed.

Lemma record_only_refl e : record_only e e.
Proof. by repeat split. Qed.

Lemma record_only_trans e1 e2 e3 :
  record_only e1 e2 -> record_only e2 e3 -> record_only e1 e3.
Proof.
  intros (? & ? & ? & ? & Hm) (? & ? & ? & ? & Hm').
  repeat split; try congruence. all: intros b; rewrite Hm'; apply Hm.
Qed.

Lemma record_only_assign_record rf v e : record_only e (assign_record rf v e).
Proof. by repeat split. Qed.

Lemma record_only_import_text sel rf s row e :
  record_only e (import_text sel rf s row e).
Proof.
  unfold import_text. destruct (dont_import s sel);
    [apply record_only_refl | apply record_only_assign_record].
Qed.

Lemma record_only_import_year sel rf s row e :
  record_only e (import_year sel rf s row e).
Proof.
  unfold import_year. destruct (dont_import s sel);
    [apply record_only_refl | apply record_only_assign_record].
Qed.

Lemma record_only_metadata_sizes e : record_only e (metadata_sizes e).
Proof.
  unfold metadata_sizes. cbv zeta.
  repeat first
    [ apply record_only_refl
    | eapply record_only_trans;
      [|match goal with
        | |- record_only _ (if ?c then _ else _) =>
            destruct c; [apply record_only_assign_record | apply record_only_refl]
        end] ].
Qed.

Lemma record_only_metadata_section s row e :
  record_only e (metadata_section s row e).
Proof.
  unfold metadata_section. destruct (String.eqb _ _); [|apply record_only_refl].
  cbv zeta.
  repeat first
    [ apply record_only_metadata_sizes
    | eapply record_only_trans;
      [|first [apply record_only_import_text | apply record_only_import_year]] ].
Qed.

Lemma touches_metadata_section s row e :
  touches no_field e (metadata_section s row e).
Proof.
  intros f _. by rewrite (proj1 (record_only_metadata_section s row e)).
Qed.

Lemma touches_report fs name e :
  fs pictureName = true -> touches fs e (report name e).
Proof.
  intros Hf. unfold report. destruct (negb _); [|apply touches_refl].
  intros g Hg. cbn. apply setattr_other. intros ->. congruence.
Qed.

(** ** What the sections leave alone: the log and the metadata record *)

Lemma quiet_refl e : quiet e e.
Proof. by split. Qed.

Lemma quiet_trans e1 e2 e3 : quiet e1 e2 -> quiet e2 e3 -> quiet e1 e3.
Proof. intros [? ?] [? ?]. split; congruence. Qed.

Lemma quiet_numeric_field target b label cell e :
  quiet e (numeric_field target b label cell e).
Proof. unfold numeric_field. destruct (validated cell); by split. Qed.

Lemma quiet_presence_flag sel f present s row e :
  quiet e (presence_flag sel f present s row e).
Proof. unfold presence_flag. destruct (is_manual s sel); by split. Qed.

Lemma quiet_class_field sel f b label s row e :
  quiet e (class_field sel f b label s row e).
Proof.
  unfold class_field.
  destruct (is_manual s sel); [by split|].
  destruct (_ =? 0); [|by split].
  destruct (createMissingClasses s); by split.
Qed.

Lemma quiet_glass_class_field s row e : quiet e (glass_class_field s row e).
Proof.
  unfold glass_class_field.
  destruct (is_manual s glassClassSelector); [by split|].
  destruct (_ =? 0); [|by split].
  destruct (createMissingClasses s); by split.
Qed.

Lemma quiet_window_field target source info label cell e :
  quiet e (window_field target source info label cell e).
Proof.
  unfold window_field. destruct (validated cell); [by split|].
  destruct (is_str _ _); by split.
Qed.

Lemma quiet_assign f v e : quiet e (assign f v e).
Proof. by split. Qed.

Ltac quiet_step :=
  first
    [ apply quiet_numeric_field
    | apply quiet_presence_flag
    | apply quiet_class_field
    | apply quiet_glass_class_field
    | apply quiet_window_field
    | apply quiet_assign ].

Ltac hush :=
  cbv zeta;
  repeat first
    [ apply quiet_refl
    | eapply quiet_trans; [|quiet_step] ].

Lemma quiet_image_section s row e : quiet e (image_section s row e).
Proof. unfold image_section. destruct (is_str _ _); hush. Qed.

Lemma quiet_frame_section s row e : quiet e (final (frame_section s row e)).
Proof.
  unfold frame_section. destruct (is_str _ _); [|cbn; hush].
  destruct (frame_thickness_cell s row); cbn; hush.
Qed.

Lemma quiet_matboard_section s row e : quiet e (matboard_section s row e).
Proof.
  unfold matboard_section, matboard_details, window_width_field,
    window_height_field.
  destruct (is_str _ _); hush.
Qed.

Lemma quiet_glass_section s row e : quiet e (glass_section s row e).
Proof. unfold glass_section. destruct (is_str _ _); hush. Qed.

Lemma quiet_symbol_section s row e : quiet e (final (symbol_section s row e)).
Proof.
  unfold symbol_section.
  destruct (String.eqb _ _); [|cbn; hush].
  destruct (is_manual _ _); [cbn; hush|].
  destruct (truthy _); [|cbn; hush].
  destruct (column _ _ _); cbn; hush.
Qed.

Lemma quiet_class_section s row e : quiet e (class_section s row e).
Proof. unfold class_section. destruct (String.eqb _ _); hush. Qed.

(** ** The shape of a row that has a name *)

Lemma named_row_Ok s row name e e' :
  named_row s row name e = Ok e' ->
  exists e8, before_report s row name e e8 /\ e' = report name e8.
Proof.
  unfold named_row. cbv zeta.
  destruct (frame_section s row _) as [e3|x e3] eqn:Hframe; [|discriminate].
  cbn [bind].
  destruct (symbol_section s row _) as [e6|x e6] eqn:Hsymbol; [|discriminate].
  cbn [bind]. intros [= <-].
  eexists. split; [|reflexivity].
  exists e3, e6. by repeat split.
Qed.

Lemma before_report_touches s row name e e8 :
  before_report s row name e e8 ->
  touches later_fields (image_section s row (assign pictureName name e)) e8.
Proof.
  intros (e3 & e6 & Hframe & Hsymbol & ->).
  pose proof (touches_frame_section s row
                (image_section s row (assign pictureName name e))) as H1.
  rewrite Hframe in H1. cbn in H1.
  pose proof (touches_symbol_section s row
                (glass_section s row (matboard_section s row e3))) as H2.
  rewrite Hsymbol in H2. cbn in H2.
  eapply touches_trans; [|eapply touches_weaken;
                           [|apply touches_metadata_section]; by intros []].
  eapply touches_trans; [|eapply touches_weaken;
                           [|apply touches_class_section]; by intros []].
  eapply touches_trans; [|eapply touches_weaken; [|apply H2]; by intros []].
  eapply touches_trans; [|eapply touches_weaken;
                           [|apply touches_glass_section]; by intros []].
  eapply touches_trans; [|eapply touches_weaken;
                           [|apply touches_matboard_section]; by intros []].
  eapply touches_weaken; [|apply H1]. by intros [].
Qed.

Lemma before_report_log s row name e e8 :
  before_report s row name e e8 -> log_file e8 = log_file e.
Proof.
  intros (e3 & e6 & Hframe & Hsymbol & ->).
  pose proof (quiet_frame_section s row
                (image_section s row (assign pictureName name e))) as [H1 _].
  rewrite Hframe in H1. cbn in H1.
  pose proof (quiet_symbol_section s row
                (glass_section s row (matboard_section s row e3))) as [H2 _].
  rewrite Hsymbol in H2. cbn in H2.
  assert (Hmeta : forall e0, log_file (metadata_section s row e0) = log_file e0).
  { intros e0. apply (record_only_metadata_section s row e0). }
  rewrite Hmeta.
  rewrite (proj1 (quiet_class_section s row e6)), H2.
  rewrite (proj1 (quiet_glass_section s row _)).
  rewrite (proj1 (quiet_matboard_section s row _)), H1.
  rewrite (proj1 (quiet_image_section s row _)). reflexivity.
Qed.

(** ** The loop *)

Lemma row_step_unnamed s row e :
  unnamed s row = true ->
  row_step s row e =
    (let e' := assign pictureName (VStr "")
                 (write name_not_found (reset_locals e)) in
     ([picture e'; picture e'], Ok e')).
Proof. unfold unnamed, row_step. cbv zeta. by intros ->. Qed.

Lemma row_step_named s row e :
  unnamed s row = false ->
  row_step s row e =
    match named_row s row (to_string (column s row imageTextureSelector))
            (reset_locals e) with
    | Ok e' => ([picture e'], Ok e')
    | Raise x e' => ([], Raise x e')
    end.
Proof. unfold unnamed, row_step. cbv zeta. by intros ->. Qed.

Lemma rows_loop_app s pre post e :
  rows_loop s (pre ++ post) e =
    match rows_loop s pre e with
    | (ys, Ok e1) =>
        let '(ys', o) := rows_loop s post e1 in ((ys ++ ys')%list, o)
    | (ys, Raise x e1) => (ys, Raise x e1)
    end.
Proof.
  revert e. induction pre as [|row pre IH]; intros e; cbn [rows_loop app].
  - by destruct (rows_loop s post e).
  - destruct (row_step s row e) as [ys [e1|x e1]]; [|reflexivity].
    rewrite IH.
    destruct (rows_loop s pre e1) as [ys1 [e2|x e2]]; [|reflexivity].
    destruct (rows_loop s post e2) as [ys2 o]. by rewrite app_assoc.
Qed.

(** A loop that ends normally has yielded one record for every row and one
    more for every row without a name. *)
Lemma rows_loop_length s rows e ys e' :
  rows_loop s rows e = (ys, Ok e') ->
  length ys = (length rows + length (filter (fun row => unnamed s row = true) rows))%nat.
Proof.
  revert e ys. induction rows as [|row rows IH]; intros e ys; cbn [rows_loop].
  - by intros [= <- _].
  - destruct (unnamed s row) eqn:Hname.
    + rewrite (row_step_unnamed s row e Hname). cbv beta iota zeta.
      match goal with
      | |- context [rows_loop s rows ?x] =>
          destruct (rows_loop s rows x) as [ys' o] eqn:Hrest
      end.
      intros [= <- ->]. apply IH in Hrest.
      rewrite filter_cons_True by done. cbn. lia.
    + rewrite (row_step_named s row e Hname).
      destruct (named_row s row _ _) as [e1|x e1]; [|discriminate].
      match goal with
      | |- context [rows_loop s rows ?x] =>
          destruct (rows_loop s rows x) as [ys' o] eqn:Hrest
      end.
      intros [= <- ->]. apply IH in Hrest.
      rewrite filter_cons_False by (rewrite Hname; discriminate). cbn. lia.
Qed.

(** C1 (the code departs from the claim). A row whose name cell gives no
    text is answered with two yields of the record, the one at line 198 and
    the one at line 533 that every row reaches: for the one fetched row the
    generator produces two records, both with the empty name, after a single
    line ["UNKNOWN [Error] - Picture name not found"] in the log. *)
Theorem unnamed_row_yields_two_records s row e :
  excelSheetName s <> "" ->
  unnamed s row = true ->
  exists e',
    get_worksheet_rows s true (Some [row]) e = ([picture e'; picture e'], Ok e')
    /\ length (fst (get_worksheet_rows s true (Some [row]) e)) = 2%nat
    /\ picture e' pictureName = VStr ""
    /\ log_file e' = (log_file e ++ [name_not_found])%list.
Proof.
  intros Hsheet Hname. unfold get_worksheet_rows.
  assert (String.eqb (excelSheetName s) "" = false) as ->
    by (by apply String.eqb_neq).
  cbn [andb negb rows_loop]. rewrite (row_step_unnamed s row e Hname).
  cbv beta iota zeta.
  eexists. split; [reflexivity|]. by repeat split.
Qed.

(** ** A section that is switched off assigns its flag only *)

Lemma section_fields_on flag (details fs : field -> bool) e0 e1 :
  fs flag = false ->
  (forall f, fs f = true -> details f = true) ->
  is_str (picture e0 flag) "True" = true ->
  touches fs e0 e1 ->
  forall e, touches (is_flag flag) e e0 ->
  touches (section_fields flag details e1) e e1.
Proof.
  intros Hflag Hsub Hon H01 e He0 f Hf. unfold section_fields in Hf.
  apply orb_false_iff in Hf as [Hf1 Hf2].
  rewrite (H01 flag Hflag), Hon, andb_true_r in Hf2.
  rewrite H01; [by apply He0|].
  destruct (fs f) eqn:E; [|reflexivity]. apply Hsub in E. congruence.
Qed.

Lemma section_fields_off flag (details : field -> bool) e e0 :
  touches (is_flag flag) e e0 -> touches (section_fields flag details e0) e e0.
Proof.
  intros H f Hf. unfold section_fields in Hf.
  apply orb_false_iff in Hf as [Hf1 _]. by apply H.
Qed.

Lemma section_fields_false flag (details : field -> bool) e f :
  f <> flag ->
  details f && is_str (picture e flag) "True" = false ->
  section_fields flag details e f = false.
Proof.
  intros Hne Hd. unfold section_fields, is_flag.
  by rewrite bool_decide_eq_false_2, Hd.
Qed.

Ltac flagged :=
  apply touches_presence_flag; unfold is_flag; by rewrite bool_decide_eq_true.

Lemma image_section_fields s row e :
  touches (section_fields withImage image_details (image_section s row e)) e
    (image_section s row e).
Proof.
  unfold image_section. cbv zeta.
  destruct (is_str _ _) eqn:Hon; [|apply section_fields_off; flagged].
  eapply (section_fields_on withImage image_details image_details);
    [reflexivity|done|exact Hon|touch|flagged].
Qed.

Lemma frame_section_fields s row e :
  touches (section_fields withFrame frame_details (final (frame_section s row e)))
    e (final (frame_section s row e)).
Proof.
  unfold frame_section. cbv zeta.
  destruct (is_str _ _) eqn:Hon; [|apply section_fields_off; flagged].
  destruct (frame_thickness_cell s row); cbn [final];
    eapply (section_fields_on withFrame frame_details frame_details);
    first [reflexivity|done|exact Hon|flagged|touch].
Qed.

Lemma matboard_section_fields s row e :
  touches
    (section_fields withMatboard matboard_details_fields (matboard_section s row e))
    e (matboard_section s row e).
Proof.
  unfold matboard_section, matboard_details, window_width_field,
    window_height_field. cbv zeta.
  destruct (is_str _ _) eqn:Hon; [|apply section_fields_off; flagged].
  eapply (section_fields_on withMatboard matboard_details_fields
            matboard_details_fields);
    [reflexivity|done|exact Hon|touch|flagged].
Qed.

Lemma glass_section_fields s row e :
  touches (section_fields withGlass glass_details (glass_section s row e)) e
    (glass_section s row e).
Proof.
  unfold glass_section. cbv zeta.
  destruct (is_str _ _) eqn:Hon; [|apply section_fields_off; flagged].
  eapply (section_fields_on withGlass glass_details glass_details);
    [reflexivity|done|exact Hon|touch|flagged].
Qed.

Lemma class_section_off s row e :
  String.eqb (classAssignPictureClass s) "True" = false ->
  class_section s row e = e.
Proof. unfold class_section. by intros ->. Qed.

(** ** What a row leaves of the record it found *)

Lemma named_row_carries_over s row name e e' :
  named_row s row name e = Ok e' ->
  forall f, derived s (picture e') f = false -> picture e' f = picture e f.
Proof.
  intros Hrow. apply named_row_Ok in Hrow as (e8 & (e3 & e6 & H3 & H6 & ->) & ->).
  set (e1 := assign pictureName name e) in *.
  set (e2 := image_section s row e1) in *.
  set (e4 := matboard_section s row e3) in *.
  set (e5 := glass_section s row e4) in *.
  set (e7 := class_section s row e6) in *.
  set (e8 := metadata_section s row e7) in *.
  set (e9 := report name e8).
  assert (T1 : touches name_field e e1) by (by apply touches_assign).
  pose proof (image_section_fields s row e1) as T2. fold e2 in T2.
  pose proof (frame_section_fields s row e2) as T3. rewrite H3 in T3. cbn in T3.
  pose proof (matboard_section_fields s row e3) as T4. fold e4 in T4.
  pose proof (glass_section_fields s row e4) as T5. fold e5 in T5.
  pose proof (touches_symbol_section s row e5) as T6. rewrite H6 in T6. cbn in T6.
  pose proof (touches_metadata_section s row e7) as T8. fold e8 in T8.
  assert (T9 : touches name_field e8 e9) by (by apply touches_report).
  assert (T7 : forall f, f <> pictureClass -> picture e7 f = picture e6 f).
  { intros f Hf. apply (touches_class_section s row e6). by destruct f. }
  assert (Ftail : forall g, name_field g = false -> symbol_fields g = false ->
                    g <> pictureClass -> picture e9 g = picture e5 g).
  { intros g Hn Hs Hc. by rewrite (T9 g Hn), (T8 g eq_refl), (T7 g Hc), (T6 g Hs). }
  assert (Fglass : picture e9 withGlass = picture e5 withGlass).
  { by apply Ftail. }
  assert (Fmat : picture e9 withMatboard = picture e4 withMatboard).
  { rewrite Ftail by done. by rewrite (T5 withMatboard eq_refl). }
  assert (Fframe : picture e9 withFrame = picture e3 withFrame).
  { rewrite Ftail by done.
    by rewrite (T5 withFrame eq_refl), (T4 withFrame eq_refl). }
  assert (Fimage : picture e9 withImage = picture e2 withImage).
  { rewrite Ftail by done.
    by rewrite (T5 withImage eq_refl), (T4 withImage eq_refl),
         (T3 withImage eq_refl). }
  clear Ftail.
  assert (T7' : String.eqb (classAssignPictureClass s) "True" = false ->
                 forall g, picture e7 g = picture e6 g).
  { intros Hoff g. unfold e7. by rewrite class_section_off. }
  clearbody e1 e2 e4 e5 e7 e8 e9. clear H3 H6.
  intros f Hd.
  assert (H76 : picture e7 f = picture e6 f).
  { destruct (decide (f = pictureClass)) as [->|Hne]; [by apply T7' | by apply T7]. }
  clear T7 T7'.
  unfold derived in Hd. rewrite Fglass, Fmat, Fframe, Fimage in Hd.
  assert (S2 : section_fields withImage image_details e2 f = false
               /\ section_fields withFrame frame_details e3 f = false
               /\ section_fields withMatboard matboard_details_fields e4 f = false
               /\ section_fields withGlass glass_details e5 f = false).
  { destruct f; cbn in Hd; try discriminate Hd;
      try (apply orb_false_iff in Hd as [? ?]);
      repeat split; (apply section_fields_false; [done | cbn; congruence]). }
  destruct S2 as (S2 & S3 & S4 & S5).
  assert (Sname : name_field f = false) by (by destruct f).
  assert (Ssymbol : symbol_fields f = false) by (by destruct f).
  rewrite (T9 f Sname), (T8 f eq_refl), H76, (T6 f Ssymbol), (T5 f S5),
    (T4 f S4), (T3 f S3), (T2 f S2).
  apply (T1 f Sname).
Qed.

(** C2 (amended). The record is one object, made before the loop and
    yielded by every row: what a row yields is the record the earlier rows
    left, with the attributes this row derives overwritten. Every attribute
    the row does not derive (the details of a section whose flag is not
    ["True"], the picture class when classes are not assigned, everything but
    the name in a row without a name) reads in the yielded record as it did
    before the row. *)
Theorem unassigned_attributes_carried_over s row e ys e' :
  row_step s row e = (ys, Ok e') ->
  Forall (fun p => p = picture e') ys
  /\ forall f, assigned s row (picture e') f = false -> picture e' f = picture e f.
Proof.
  unfold assigned. destruct (unnamed s row) eqn:Hname.
  - rewrite (row_step_unnamed s row e Hname). cbv zeta. intros [= <- <-].
    split; [by repeat constructor|].
    intros f Hf. cbn. rewrite setattr_other; [done|]. by intros ->.
  - rewrite (row_step_named s row e Hname).
    destruct (named_row s row _ _) as [e1|x e1] eqn:Hrow; [|discriminate].
    intros [= <- <-]. split; [by repeat constructor|].
    intros f Hf. by rewrite (named_row_carries_over _ _ _ _ _ Hrow f Hf).
Qed.

(** ** Presence flags *)

Lemma present_if_not_None_false cell :
  present_if_not_None cell = false <-> falsy_text cell.
Proof.
  unfold present_if_not_None, falsy_text, is_str. split.
  - destruct cell as [|t| |]; cbn; try discriminate; [by left|].
    destruct (String.eqb_spec t ""); [subst; by right; left|].
    destruct (String.eqb_spec t "False"); [subst; by right; right; left|].
    destruct (String.eqb_spec t "No"); [subst; by right; right; right|].
    discriminate.
  - by intros [->|[->|[->| ->]]].
Qed.

Lemma present_if_truthy_false cell :
  present_if_truthy cell = false <-> falsy_text cell \/ zero_number cell.
Proof.
  unfold present_if_truthy, falsy_text, zero_number, is_str, truthy. split.
  - destruct cell as [|t|z|x]; cbn.
    + intros _. by left; left.
    + destruct (String.eqb_spec t ""); [subst; by left; right; left|].
      destruct (String.eqb_spec t "False"); [subst; by left; right; right; left|].
      destruct (String.eqb_spec t "No"); [subst; by left; right; right; right|].
      discriminate.
    + destruct (Z.eqb_spec z 0); [subst; by right; left|discriminate].
    + destruct (N.eqb_spec (fmant x) 0); [|discriminate].
      intros _. right; right. by exists x.
  - intros [[->|[->|[->| ->]]]|[->|(x & -> & Hx)]]; try reflexivity.
    cbn. by rewrite Hx.
Qed.

Lemma flag_rule_flag_text (unset : value -> Prop) (present : value -> bool) cell :
  (present cell = false <-> unset cell) ->
  flag_rule unset cell (flag_text (present cell)).
Proof.
  intros H. unfold flag_rule, flag_text. destruct (present cell).
  - right. split; [|done]. intros Hu. apply H in Hu. discriminate.
  - left. split; [|done]. by apply H.
Qed.

Lemma after_section_flag c s row e :
  picture (after_section c s row e) (flag_of c)
  = picture (presence_flag (flag_selector c) (flag_of c)
               (match c with
                | Frame => present_if_not_None
                | _ => present_if_truthy
                end) s row e) (flag_of c).
Proof.
  destruct c; cbn [after_section flag_of flag_selector].
  - unfold image_section. cbv zeta. destruct (is_str _ _); [|done].
    by rewrite !(touches_numeric_field image_details).
  - unfold frame_section. cbv zeta. destruct (is_str _ _); [|done].
    destruct (frame_thickness_cell s row); cbn [final].
    + rewrite !(touches_numeric_field frame_details) by done.
      rewrite (touches_class_field frame_details) by done.
      by rewrite !(touches_numeric_field frame_details).
    + by rewrite !(touches_numeric_field frame_details).
  - unfold matboard_section, matboard_details, window_width_field,
      window_height_field. cbv zeta. destruct (is_str _ _); [|done].
    rewrite !(touches_numeric_field matboard_details_fields) by done.
    rewrite (touches_class_field matboard_details_fields) by done.
    rewrite !(touches_numeric_field matboard_details_fields) by done.
    rewrite !(touches_window_field matboard_details_fields) by done.
    by rewrite !(touches_numeric_field matboard_details_fields).
  - unfold glass_section. cbv zeta. destruct (is_str _ _); [|done].
    rewrite (touches_glass_class_field glass_details) by done.
    by rewrite !(touches_numeric_field glass_details).
Qed.

(** C3 (amended). A presence flag read from a column is ["False"] or
    ["True"] by the cell alone. [withFrame] is ["False"] exactly on None, the
    empty str, ["False"] and ["No"], and ["True"] on everything else, the
    number 0 included. [withImage], [withMatboard] and [withGlass] are
    ["False"] on those four cells and on a number that is zero, and ["True"]
    on everything else. *)
Theorem presence_flag_from_column c s row e :
  is_manual s (flag_selector c) = false ->
  flag_rule (unset_cell c) (column s row (flag_selector c))
    (picture (after_section c s row e) (flag_of c)).
Proof.
  intros Hcol. rewrite after_section_flag. unfold presence_flag.
  rewrite Hcol. cbn [picture assign]. rewrite setattr_same.
  apply flag_rule_flag_text.
  destruct c; cbn [unset_cell];
    first [apply present_if_truthy_false | apply present_if_not_None_false].
Qed.

(** ** Rounding and rendering *)




(** ** Messages only grow, and a row that is invalid stays so *)

Lemma append_empty (t : string) : t ++ "" = t.
Proof.
  induction t as [|c t IH]; [reflexivity|].
  change (String c (t ++ "") = String c t). congruence.
Qed.

Lemma append_assoc (t u w : string) : (t ++ u) ++ w = t ++ (u ++ w).
Proof.
  induction t as [|c t IH]; [reflexivity|].
  change (String c ((t ++ u) ++ w) = String c (t ++ (u ++ w))). congruence.
Qed.

Lemma grows_refl e : grows e e.
Proof. split; [done|]. intros b. exists "". by rewrite append_empty. Qed.

Lemma grows_trans e1 e2 e3 : grows e1 e2 -> grows e2 e3 -> grows e1 e3.
Proof.
  intros [V12 M12] [V23 M23]. split; [auto|].
  intros b. destruct (M12 b) as [t Ht]. destruct (M23 b) as [u Hu].
  exists (t ++ u). by rewrite Hu, Ht, append_assoc.
Qed.

Lemma grows_same e e' :
  valid_picture e' = valid_picture e ->
  (forall b, message b e' = message b e) -> grows e e'.
Proof.
  intros HV HM. split; [congruence|].
  intros b. exists "". by rewrite append_empty.
Qed.

Lemma grows_append_message b text e : grows e (append_message b text e).
Proof.
  split; [done|]. intros b'.
  destruct b, b'; cbn; first [by exists text | exists ""; by rewrite append_empty].
Qed.

Lemma grows_invalidate e : grows e (invalidate e).
Proof. split; [done|]. intros b. exists "". by rewrite append_empty. Qed.

Lemma grows_numeric_field target b label cell e :
  grows e (numeric_field target b label cell e).
Proof.
  unfold numeric_field. destruct (validated cell).
  - by apply grows_same.
  - eapply grows_trans; [apply grows_append_message | apply grows_invalidate].
Qed.

Lemma grows_presence_flag sel f present s row e :
  grows e (presence_flag sel f present s row e).
Proof. unfold presence_flag. destruct (is_manual s sel); by apply grows_same. Qed.

Lemma grows_class_field sel f b label s row e :
  grows e (class_field sel f b label s row e).
Proof.
  unfold class_field.
  destruct (is_manual s sel); [by apply grows_same|].
  destruct (_ =? 0); [|by apply grows_same].
  destruct (createMissingClasses s); [by apply grows_same|].
  eapply grows_trans; [apply grows_append_message | apply grows_invalidate].
Qed.

Lemma grows_glass_class_field s row e : grows e (glass_class_field s row e).
Proof.
  unfold glass_class_field.
  destruct (is_manual s glassClassSelector); [by apply grows_same|].
  destruct (_ =? 0); [|by apply grows_same].
  destruct (createMissingClasses s); [by apply grows_same|].
  eapply grows_trans; [apply grows_append_message | apply grows_invalidate].
Qed.

Lemma grows_window_field target source info label cell e :
  grows e (window_field target source info label cell e).
Proof.
  unfold window_field. destruct (validated cell); [by apply grows_same|].
  destruct (is_str _ _).
  - eapply grows_trans; [|apply grows_append_message]. by apply grows_same.
  - eapply grows_trans; [apply grows_append_message | apply grows_invalidate].
Qed.

Lemma grows_assign f v e : grows e (assign f v e).
Proof. by apply grows_same. Qed.

Ltac grow_step :=
  first
    [ apply grows_numeric_field
    | apply grows_presence_flag
    | apply grows_class_field
    | apply grows_glass_class_field
    | apply grows_window_field
    | apply grows_assign ].

Ltac grow :=
  cbv zeta;
  repeat first
    [ apply grows_refl
    | eapply grows_trans; [|grow_step] ].

Lemma grows_matboard_details s row e : grows e (matboard_details s row e).
Proof. unfold matboard_details. grow. Qed.

Lemma grows_glass_section s row e : grows e (glass_section s row e).
Proof. unfold glass_section. destruct (is_str _ _); grow. Qed.

Lemma grows_symbol_section s row e : grows e (final (symbol_section s row e)).
Proof.
  unfold symbol_section.
  destruct (String.eqb _ _); [|cbn; grow].
  destruct (is_manual _ _); [cbn; grow|].
  destruct (truthy _); [|cbn; grow].
  destruct (column _ _ _); cbn; grow.
Qed.

Lemma grows_class_section s row e : grows e (class_section s row e).
Proof. unfold class_section. destruct (String.eqb _ _); grow. Qed.

Lemma grows_metadata_section s row e : grows e (metadata_section s row e).
Proof.
  destruct (record_only_metadata_section s row e) as (_ & _ & _ & HV & HM).
  by apply grows_same.
Qed.

Lemma grows_report name e : grows e (report name e).
Proof. unfold report. destruct (negb _); by apply grows_same. Qed.


(** ** The window of the matboard *)

Lemma window_step_fallback d s row e :
  validated (column s row (window_selector d)) = None ->
  window_fallback d s row e (window_step d s row e).
Proof.
  intros Hbad. unfold window_fallback.
  destruct d; cbn [window_step window_selector] in *;
    unfold window_width_field, window_height_field, window_field;
    rewrite Hbad; destruct (is_str _ _); cbn; by rewrite ?setattr_same.
Qed.

Lemma touches_matboard_details s row e :
  touches after_window e (matboard_details s row e).
Proof. unfold matboard_details. touch. Qed.

(** In a matboard section that is switched on, the window block of dimension
    [d] runs in a state [x] that has the image attributes of the state the
    section started in, and what it assigns is still there at the end. *)
Lemma matboard_section_window d s row e :
  is_str (picture (matboard_section s row e) withMatboard) "True" = true ->
  exists x,
    picture x withImage = picture e withImage
    /\ picture x (image_attr d) = picture e (image_attr d)
    /\ picture (matboard_section s row e) (window_attr d)
       = picture (window_step d s row x) (window_attr d)
    /\ grows (window_step d s row x) (matboard_section s row e).
Proof.
  intros Hon.
  pose proof (after_section_flag Matboard s row e) as Hflag.
  cbn [after_section flag_of flag_selector] in Hflag. rewrite Hflag in Hon.
  unfold matboard_section. cbv zeta. rewrite Hon.
  set (a := numeric_field frameHeight _ _ _ _).
  assert (Ha : touches matboard_fields e a) by (subst a; touch).
  destruct d; cbn [window_step image_attr window_attr].
  - exists a. split; [by apply Ha|]. split; [by apply Ha|]. split.
    + rewrite (touches_matboard_details s row _ windowWidth eq_refl).
      unfold window_height_field.
      by rewrite (touches_window_field (is_flag windowHeight)).
    + eapply grows_trans; [|apply grows_matboard_details].
      apply grows_window_field.
  - exists (window_width_field s row a).
    assert (Hw : touches (is_flag windowWidth) a (window_width_field s row a)).
    { unfold window_width_field. by apply touches_window_field. }
    split; [rewrite (Hw withImage eq_refl); by apply Ha|].
    split; [rewrite (Hw imageHeight eq_refl); by apply Ha|]. split.
    + by rewrite (touches_matboard_details s row _ windowHeight eq_refl).
    + apply grows_matboard_details.
Qed.

Lemma row_tail s row name e4 e6 :
  symbol_section s row (glass_section s row e4) = Ok e6 ->
  let e' := report name (metadata_section s row (class_section s row e6)) in
  touches tail_fields e4 e' /\ grows e4 e'.
Proof.
  intros Hsymbol. cbv zeta.
  pose proof (touches_symbol_section s row (glass_section s row e4)) as T6.
  pose proof (grows_symbol_section s row (glass_section s row e4)) as G6.
  rewrite Hsymbol in T6, G6. cbn [final] in T6, G6. split.
  - eapply touches_trans; [|apply touches_report; reflexivity].
    eapply touches_trans; [|eapply touches_weaken;
                             [|apply touches_metadata_section]; by intros []].
    eapply touches_trans; [|eapply touches_weaken;
                             [|apply touches_class_section]; by intros []].
    eapply touches_trans; [|eapply touches_weaken; [|apply T6]; by intros []].
    eapply touches_weaken; [|apply touches_glass_section]. by intros [].
  - eapply grows_trans; [|apply grows_report].
    eapply grows_trans; [|apply grows_metadata_section].
    eapply grows_trans; [|apply grows_class_section].
    eapply grows_trans; [|apply G6].
    apply grows_glass_section.
Qed.

(** C5. When the matboard is on and the cell of the window width (resp.
    height) does not validate, lines 358-368 (resp. 370-380) do this to the
    state they run in: with [withImage == "True"] the window attribute takes
    the value of the image attribute, the informational text is appended to
    the matboard messages, and the other messages and the validity flag are
    unchanged; otherwise the error text is appended and the flag is set to
    False. In the record the row yields this reads: the window attribute
    equals the image attribute and the informational text is among the
    matboard messages, or else the row is invalid and the error text is
    among them. *)
Theorem window_size_falls_back_to_image d s row :
  validated (column s row (window_selector d)) = None ->
  (forall e, window_fallback d s row e (window_step d s row e))
  /\ forall e ys e',
      unnamed s row = false ->
      row_step s row e = (ys, Ok e') ->
      is_str (picture e' withMatboard) "True" = true ->
      ys = [picture e']
      /\ if is_str (picture e' withImage) "True" then
           picture e' (window_attr d) = picture e' (image_attr d)
           /\ exists pre post,
               matboard_message e' = pre ++ window_info d ++ post
         else
           valid_picture e' = false
           /\ exists pre post,
               matboard_message e' =
                 pre ++ format_message (window_label d)
                          (column s row (window_selector d)) ++ post.
Proof.
  intros Hbad. split; [intros e; by apply window_step_fallback|].
  intros e ys e' Hname Hstep Hon.
  rewrite (row_step_named s row e Hname) in Hstep.
  destruct (named_row s row _ _) as [e1|x e1] eqn:Hrow; [|discriminate].
  injection Hstep as <- <-. split; [reflexivity|].
  apply named_row_Ok in Hrow as (e8 & (e3 & e6 & H3 & H6 & ->) & ->).
  destruct (row_tail s row (to_string (column s row imageTextureSelector))
              _ _ H6) as [Ttail Gtail].
  cbv zeta in Ttail, Gtail.
  set (e' := report _ _) in *. set (e4 := matboard_section s row e3) in *.
  assert (Hflag : picture e' withMatboard = picture e4 withMatboard)
    by (by apply Ttail).
  assert (Himage : picture e' withImage = picture e3 withImage).
  { rewrite (Ttail withImage eq_refl).
    by apply (touches_matboard_section s row e3). }
  assert (Hattr : picture e' (image_attr d) = picture e3 (image_attr d)).
  { rewrite (Ttail (image_attr d)) by (by destruct d).
    apply (touches_matboard_section s row e3). by destruct d. }
  assert (Hwin : picture e' (window_attr d) = picture e4 (window_attr d)).
  { apply Ttail. by destruct d. }
  rewrite Hflag in Hon.
  destruct (matboard_section_window d s row e3 Hon)
    as (x & Hx1 & Hx2 & Hx3 & Gx).
  fold e4 in Hx3, Gx.
  pose proof (window_step_fallback d s row x Hbad) as Hstep.
  unfold window_fallback in Hstep. rewrite Hx1, <- Himage in Hstep.
  destruct (grows_trans _ _ _ Gx Gtail) as [GV GM].
  destruct (GM matboard_buffer) as [post Hpost]. cbn [message] in Hpost.
  destruct (is_str (picture e' withImage) "True").
  - destruct Hstep as (Hw & Hm & _). split.
    + by rewrite Hwin, Hx3, Hw, Hx2, Hattr.
    + exists (matboard_message x), post. by rewrite Hpost, Hm, append_assoc.
  - destruct Hstep as (_ & Hm & Hv). split; [by apply GV|].
    exists (matboard_message x), post. by rewrite Hpost, Hm, append_assoc.
Qed.

(** ** Class references *)

(** The frame and the matboard class: a cell that names nothing is created
    when [createMissingClasses] is set, by [NameClass] on the cell followed
    by [NameClass] on the class that was active, which is active again
    afterwards. *)
Lemma class_field_creates sel f b label s row e :
  is_manual s sel = false ->
  createMissingClasses s = true ->
  GetObject (host e) (column s row sel) = 0 ->
  let e' := class_field sel f b label s row e in
  host e' =
    NameClass (NameClass (host e) (column s row sel)) (VStr (ActiveClass (host e)))
  /\ ActiveClass (host e') = ActiveClass (host e)
  /\ picture e' f = column s row sel
  /\ valid_picture e' = valid_picture e
  /\ forall b', message b' e' = message b' e.
Proof.
  intros Hcol Hcreate Hmissing. cbv zeta. unfold class_field.
  rewrite Hcol, Hmissing, Hcreate. cbn [Z.eqb].
  cbn [host picture assign set_host valid_picture]. unfold create_class.
  rewrite ActiveClass_NameClass, setattr_same. by repeat split.
Qed.

(** A cell that names something is taken as it is. *)
Lemma class_field_exists sel f b label s row e :
  is_manual s sel = false ->
  GetObject (host e) (column s row sel) <> 0 ->
  class_field sel f b label s row e = assign f (column s row sel) e.
Proof.
  intros Hcol Hexists. unfold class_field. rewrite Hcol.
  by apply Z.eqb_neq in Hexists as ->.
Qed.

(** C6 (the code departs from the claim). The glass class of a column is
    looked up under the value the attribute [glassClass] has before the
    assignment, not under the cell. When that value names nothing and
    classes are not created, the cell is rejected although the resource it
    names exists: the text ["- No such Glass Class (<cell>)"] is appended,
    the row is marked invalid and [glassClass] keeps its value. *)
Theorem glass_class_checks_previous_value s row e :
  is_manual s glassClassSelector = false ->
  createMissingClasses s = false ->
  GetObject (host e) (column s row glassClassSelector) <> 0 ->
  GetObject (host e) (picture e glassClass) = 0 ->
  let e' := glass_class_field s row e in
  picture e' = picture e
  /\ glass_message e' =
       glass_message e
       ++ format_message "- No such Glass Class" (column s row glassClassSelector)
  /\ valid_picture e' = false
  /\ host e' = host e.
Proof.
  intros Hcol Hcreate _ Hprevious. cbv zeta. unfold glass_class_field.
  by rewrite Hcol, Hprevious, Hcreate.
Qed.

(** C7 (the code departs from the claim). For the frame and the matboard
    class the claim holds ([class_field_creates]). For the glass class the
    lookup is on the previous value of [glassClass]: when that value names
    an existing resource, a cell that names nothing is assigned without any
    call to [NameClass]; the host is unchanged, so the class is still
    missing. *)
Theorem glass_class_not_created s row e :
  is_manual s glassClassSelector = false ->
  createMissingClasses s = true ->
  GetObject (host e) (column s row glassClassSelector) = 0 ->
  GetObject (host e) (picture e glassClass) <> 0 ->
  let e' := glass_class_field s row e in
  host e' = host e
  /\ GetObject (host e') (column s row glassClassSelector) = 0
  /\ picture e' glassClass = column s row glassClassSelector
  /\ valid_picture e' = valid_picture e
  /\ glass_message e' = glass_message e.
Proof.
  intros Hcol _ Hmissing Hprevious. cbv zeta. unfold glass_class_field.
  rewrite Hcol. apply Z.eqb_neq in Hprevious as ->.
  cbn [host picture assign valid_picture glass_message].
  by rewrite setattr_same.
Qed.

(** ** Exceptions *)


Lemma frame_section_raises s row e :
  frame_key_missing s = true ->
  is_str (picture (final (frame_section s row e)) withFrame) "True" = true ->
  exists e3, frame_section s row e = Raise AttributeError e3.
Proof.
  unfold frame_key_missing. intros [Hman Hkey]%andb_true_iff Hon.
  pose proof (after_section_flag Frame s row e) as Hflag.
  cbn [after_section flag_of flag_selector] in Hflag. rewrite Hflag in Hon.
  unfold frame_section, frame_thickness_cell. cbv zeta. rewrite Hon.
  apply negb_true_iff in Hman as ->.
  destruct (pictureParameters_frameThicknessSelector s); [discriminate|by eexists].
Qed.



(** ** The report of an invalid row *)

Lemma before_report_name s row name e e8 :
  before_report s row name e e8 -> picture e8 pictureName = name.
Proof.
  intros H. rewrite (before_report_touches _ _ _ _ _ H pictureName eq_refl).
  rewrite (touches_image_section s row _ pictureName eq_refl).
  cbn. apply setattr_same.
Qed.


(** ** Manual values *)


(** ** Metadata *)

Lemma import_text_same sel rf s row e :
  pictureRecord (import_text sel rf s row e) rf
  = if dont_import s sel then pictureRecord e rf else column s row sel.
Proof.
  unfold import_text. destruct (dont_import s sel); [done|].
  cbn. apply setattr_same.
Qed.

Lemma import_text_other sel rf rf' s row e :
  rf' <> rf ->
  pictureRecord (import_text sel rf s row e) rf' = pictureRecord e rf'.
Proof.
  intros Hne. unfold import_text. destruct (dont_import s sel); [done|].
  cbn. by apply setattr_other.
Qed.

Lemma import_year_same sel rf s row e :
  pictureRecord (import_year sel rf s row e) rf
  = if dont_import s sel then pictureRecord e rf
    else VStr (make_year_string (column s row sel)).
Proof.
  unfold import_year. destruct (dont_import s sel); [done|].
  cbn. apply setattr_same.
Qed.

Lemma import_year_other sel rf rf' s row e :
  rf' <> rf ->
  pictureRecord (import_year sel rf s row e) rf' = pictureRecord e rf'.
Proof.
  intros Hne. unfold import_year. destruct (dont_import s sel); [done|].
  cbn. by apply setattr_other.
Qed.

Lemma metadata_sizes_value e rf :
  pictureRecord (metadata_sizes e) rf
  = match rf with
    | imageSize =>
        if is_str (picture e withImage) "True"
        then format_size (picture e imageHeight) (picture e imageWidth)
        else pictureRecord e rf
    | frameSize =>
        if is_str (picture e withFrame) "True"
           || is_str (picture e withMatboard) "True"
        then format_size (picture e frameHeight) (picture e frameWidth)
        else pictureRecord e rf
    | windowSize =>
        if is_str (picture e withMatboard) "True"
        then format_size (picture e windowHeight) (picture e windowWidth)
        else pictureRecord e rf
    | _ => pictureRecord e rf
    end.
Proof.
  unfold metadata_sizes. cbv zeta.
  assert (Hp : forall rf' v e0, picture (assign_record rf' v e0) = picture e0)
    by reflexivity.
  destruct (is_str (picture e withImage) "True") eqn:E1;
    rewrite ?Hp;
    destruct (is_str (picture e withFrame) "True") eqn:E2;
    destruct (is_str (picture e withMatboard) "True") eqn:E3;
    cbv beta iota delta [orb]; rewrite ?Hp, ?E3;
    destruct rf; reflexivity.
Qed.

Ltac peel :=
  repeat first
    [ rewrite import_text_other by discriminate
    | rewrite import_year_other by discriminate
    | rewrite import_text_same
    | rewrite import_year_same ].

Lemma metadata_section_value s row e rf :
  String.eqb (metaImportMetadata s) "True" = true ->
  pictureRecord (metadata_section s row e) rf
  = metadata_value s row rf (pictureRecord e rf) (picture e).
Proof.
  intros Hon. unfold metadata_section. rewrite Hon. cbv zeta.
  unfold metadata_value.
  destruct rf; peel; rewrite metadata_sizes_value; reflexivity.
Qed.

Lemma metadata_section_off s row e :
  String.eqb (metaImportMetadata s) "True" = false ->
  metadata_section s row e = e.
Proof. unfold metadata_section. by intros ->. Qed.

Lemma metadata_value_ext s row rf old (p q : PictureParameters) :
  (forall f, f <> pictureName -> p f = q f) ->
  metadata_value s row rf old p = metadata_value s row rf old q.
Proof.
  intros H. unfold metadata_value.
  destruct rf; cbv zeta; (rewrite ?H by done); reflexivity.
Qed.

Lemma rows_loop_snoc s pre row e ys e' :
  rows_loop s (pre ++ [row]) e = (ys, Ok e') ->
  exists ys_pre e1 ys_row,
    rows_loop s pre e = (ys_pre, Ok e1)
    /\ row_step s row e1 = (ys_row, Ok e')
    /\ ys = (ys_pre ++ ys_row)%list.
Proof.
  rewrite rows_loop_app.
  destruct (rows_loop s pre e) as [ys_pre [e1|x e1]]; [|discriminate].
  cbn [rows_loop].
  destruct (row_step s row e1) as [ys_row [e2|x e2]] eqn:Hstep; [|discriminate].
  intros [= <- <-]. exists ys_pre, e1, ys_row. by rewrite app_nil_r.
Qed.

(** The metadata record when the metadata section of a row starts is the one
    the row found. *)
Lemma before_metadata_record s row name e e3 e6 :
  frame_section s row (image_section s row (assign pictureName name e)) = Ok e3 ->
  symbol_section s row (glass_section s row (matboard_section s row e3)) = Ok e6 ->
  pictureRecord (class_section s row e6) = pictureRecord e.
Proof.
  intros Hframe Hsymbol.
  pose proof (quiet_frame_section s row
                (image_section s row (assign pictureName name e))) as [_ H1].
  rewrite Hframe in H1. cbn in H1.
  pose proof (quiet_symbol_section s row
                (glass_section s row (matboard_section s row e3))) as [_ H2].
  rewrite Hsymbol in H2. cbn in H2.
  rewrite (proj2 (quiet_class_section s row e6)), H2.
  rewrite (proj2 (quiet_glass_section s row _)).
  rewrite (proj2 (quiet_matboard_section s row _)), H1.
  by rewrite (proj2 (quiet_image_section s row _)).
Qed.

(** C10. With [metaImportMetadata == "True"] the metadata of a row is
    written to the attributes of the one object [settings.pictureRecord]; the
    metadata section assigns nothing in the yielded record. After the loop
    has processed a row that has a name, every attribute of that object is
    the value of this row where the row imports it (a column that is not
    ["-- Don't Import"], a size whose component is on), whatever the earlier
    rows had put there, and is what the earlier rows left where it does not:
    all the records yielded so far share this one state. *)
Theorem metadata_goes_to_the_shared_record s pre row e ys e' :
  String.eqb (metaImportMetadata s) "True" = true ->
  unnamed s row = false ->
  rows_loop s (pre ++ [row]) e = (ys, Ok e') ->
  (forall e0, picture (metadata_section s row e0) = picture e0)
  /\ exists ys_pre e1,
      rows_loop s pre e = (ys_pre, Ok e1)
      /\ ys = (ys_pre ++ [picture e'])%list
      /\ forall rf,
          pictureRecord e' rf
          = metadata_value s row rf (pictureRecord e1 rf) (picture e').
Proof.
  intros Hon Hname Hloop.
  split; [intros e0; apply (record_only_metadata_section s row e0)|].
  apply rows_loop_snoc in Hloop as (ys_pre & e1 & ys_row & Hpre & Hstep & ->).
  exists ys_pre, e1. split; [exact Hpre|].
  rewrite (row_step_named s row e1 Hname) in Hstep.
  destruct (named_row s row _ _) as [e2|x e2] eqn:Hrow; [|discriminate].
  injection Hstep as <- <-. split; [reflexivity|].
  apply named_row_Ok in Hrow as (e8 & (e3 & e6 & H3 & H6 & ->) & ->).
  intros rf.
  set (name := to_string (column s row imageTextureSelector)) in *.
  set (e7 := class_section s row e6).
  assert (Hrecord : pictureRecord (report name (metadata_section s row e7))
                    = pictureRecord (metadata_section s row e7)).
  { unfold report. by destruct (negb _). }
  rewrite Hrecord, (metadata_section_value s row e7 rf Hon).
  unfold e7 at 1.
  rewrite (before_metadata_record s row name (reset_locals e1) e3 e6 H3 H6).
  cbn [pictureRecord reset_locals].
  apply metadata_value_ext. intros f Hf. symmetry.
  rewrite (touches_report name_field name _ eq_refl f) by (by destruct f).
  by rewrite (proj1 (record_only_metadata_section s row e7)).
Qed.

(** * Further properties of the loop *)

(** ** A relation that every step keeps holds of the whole row *)

(** The state in which a row with a name ends is the report of a state
    [e8], or, when the body raised, the state [e8] itself; [e8] is related to
    the start by any relation that the steps before the report keep. *)
Lemma named_row_final (R : Env VS -> Env VS -> Prop) s row name e :
  (forall a, R a a) ->
  (forall a m c, R a m -> R m c -> R a c) ->
  (forall a, R a (assign pictureName name a)) ->
  (forall a, R a (image_section s row a)) ->
  (forall a, R a (final (frame_section s row a))) ->
  (forall a, R a (matboard_section s row a)) ->
  (forall a, R a (glass_section s row a)) ->
  (forall a, R a (final (symbol_section s row a))) ->
  (forall a, R a (class_section s row a)) ->
  (forall a, R a (metadata_section s row a)) ->
  exists e8,
    R e e8
    /\ (named_row s row name e = Ok (report name e8)
        \/ named_row s row name e = Raise AttributeError e8).
Proof.
  intros Hrefl Htrans Hname Himage Hframe Hmat Hglass Hsymbol Hclass Hmeta.
  unfold named_row. cbv zeta.
  set (e2 := image_section s row (assign pictureName name e)).
  assert (H2 : R e e2) by (eapply Htrans; [apply Hname | apply Himage]).
  pose proof (Hframe e2) as H3.
  destruct (frame_section s row e2) as [e3|[] e3]; cbn [final bind] in *.
  - set (e5 := glass_section s row (matboard_section s row e3)).
    assert (H5 : R e e5).
    { eapply Htrans; [exact H2|]. eapply Htrans; [exact H3|].
      eapply Htrans; [apply Hmat | apply Hglass]. }
    pose proof (Hsymbol e5) as H6.
    destruct (symbol_section s row e5) as [e6|[] e6]; cbn [final bind] in *.
    + eexists. split; [|left; reflexivity].
      eapply Htrans; [exact H5|]. eapply Htrans; [exact H6|].
      eapply Htrans; [apply Hclass | apply Hmeta].
    + exists e6. split; [|by right]. eapply Htrans; [exact H5 | exact H6].
  - exists e3. split; [|by right]. eapply Htrans; [exact H2 | exact H3].
Qed.

(** ** The host *)

Lemma hosted_same s e e' : host e' = host e -> hosted s e e'.
Proof. intros H. split; [by rewrite H | by intros _]. Qed.

Lemma hosted_refl s e : hosted s e e.
Proof. by apply hosted_same. Qed.

Lemma hosted_trans s e1 e2 e3 :
  hosted s e1 e2 -> hosted s e2 e3 -> hosted s e1 e3.
Proof.
  intros [A12 H12] [A23 H23]. split; [congruence|].
  intros Hoff. rewrite (H23 Hoff). by apply H12.
Qed.

Lemma hosted_numeric_field s target b label cell e :
  hosted s e (numeric_field target b label cell e).
Proof. apply hosted_same. unfold numeric_field. by destruct (validated cell). Qed.

Lemma hosted_presence_flag sel f present s row e :
  hosted s e (presence_flag sel f present s row e).
Proof. apply hosted_same. unfold presence_flag. by destruct (is_manual s sel). Qed.

Lemma hosted_window_field s target source info label cell e :
  hosted s e (window_field target source info label cell e).
Proof.
  apply hosted_same. unfold window_field.
  destruct (validated cell); [done|]. by destruct (is_str _ _).
Qed.

Lemma hosted_assign s f v e : hosted s e (assign f v e).
Proof. by apply hosted_same. Qed.

Lemma hosted_create_class s f cell e :
  createMissingClasses s = true ->
  hosted s e (assign f cell (set_host (create_class cell (host e)) e)).
Proof.
  intros Hon. split; [|congruence].
  cbn [host assign set_host]. unfold create_class.
  apply ActiveClass_NameClass.
Qed.

Lemma hosted_class_field sel f b label s row e :
  hosted s e (class_field sel f b label s row e).
Proof.
  unfold class_field.
  destruct (is_manual s sel); [by apply hosted_same|].
  destruct (_ =? 0); [|by apply hosted_same].
  destruct (createMissingClasses s) eqn:Hcreate;
    [by apply hosted_create_class | by apply hosted_same].
Qed.

Lemma hosted_glass_class_field s row e : hosted s e (glass_class_field s row e).
Proof.
  unfold glass_class_field.
  destruct (is_manual s glassClassSelector); [by apply hosted_same|].
  destruct (_ =? 0); [|by apply hosted_same].
  destruct (createMissingClasses s) eqn:Hcreate;
    [by apply hosted_create_class | by apply hosted_same].
Qed.

Ltac host_step :=
  first
    [ apply hosted_numeric_field
    | apply hosted_presence_flag
    | apply hosted_class_field
    | apply hosted_glass_class_field
    | apply hosted_window_field
    | apply hosted_assign ].

Ltac hosting :=
  cbv zeta;
  repeat first
    [ apply hosted_refl
    | eapply hosted_trans; [|host_step] ].

Lemma hosted_image_section s row e : hosted s e (image_section s row e).
Proof. unfold image_section. destruct (is_str _ _); hosting. Qed.

Lemma hosted_frame_section s row e : hosted s e (final (frame_section s row e)).
Proof.
  unfold frame_section. destruct (is_str _ _); [|cbn; hosting].
  destruct (frame_thickness_cell s row); cbn; hosting.
Qed.

Lemma hosted_matboard_section s row e : hosted s e (matboard_section s row e).
Proof.
  unfold matboard_section, matboard_details, window_width_field,
    window_height_field.
  destruct (is_str _ _); hosting.
Qed.

Lemma hosted_glass_section s row e : hosted s e (glass_section s row e).
Proof. unfold glass_section. destruct (is_str _ _); hosting. Qed.

Lemma hosted_symbol_section s row e : hosted s e (final (symbol_section s row e)).
Proof.
  unfold symbol_section.
  destruct (String.eqb _ _); [|cbn; hosting].
  destruct (is_manual _ _); [cbn; hosting|].
  destruct (truthy _); [|cbn; hosting].
  destruct (column _ _ _); cbn; hosting.
Qed.

Lemma hosted_class_section s row e : hosted s e (class_section s row e).
Proof. unfold class_section. destruct (String.eqb _ _); hosting. Qed.

Lemma hosted_metadata_section s row e : hosted s e (metadata_section s row e).
Proof. apply hosted_same. apply (record_only_metadata_section s row e). Qed.

Lemma hosted_report s name e : hosted s e (report name e).
Proof. apply hosted_same. unfold report. by destruct (negb _). Qed.

Lemma hosted_row_step s row e : hosted s e (final (snd (row_step s row e))).
Proof.
  unfold row_step. cbv zeta. destruct (negb _); [by apply hosted_same|].
  destruct (named_row_final (hosted s) s row
              (to_string (column s row imageTextureSelector)) (reset_locals e)
              (hosted_refl s) (hosted_trans s)
              (fun a => hosted_assign s _ _ a) (hosted_image_section s row)
              (hosted_frame_section s row) (hosted_matboard_section s row)
              (hosted_glass_section s row) (hosted_symbol_section s row)
              (hosted_class_section s row) (hosted_metadata_section s row))
    as (e8 & H8 & [Hrow|Hrow]); rewrite Hrow; cbn [snd final].
  - eapply hosted_trans; [|apply hosted_report].
    eapply hosted_trans; [|exact H8]. by apply hosted_same.
  - eapply hosted_trans; [|exact H8]. by apply hosted_same.
Qed.

Lemma hosted_rows_loop s rows e : hosted s e (final (snd (rows_loop s rows e))).
Proof.
  revert e. induction rows as [|row rows IH]; intros e; cbn [rows_loop].
  - apply hosted_refl.
  - pose proof (hosted_row_step s row e) as Hrow.
    destruct (row_step s row e) as [ys [e1|x e1]]; cbn [snd final] in Hrow.
    + specialize (IH e1). destruct (rows_loop s rows e1) as [ys' o].
      cbn [snd] in *. by eapply hosted_trans.
    + exact Hrow.
Qed.

(** ** The generator is the loop over the fetched rows *)

Lemma get_worksheet_rows_loop s connected cursor e :
  get_worksheet_rows s connected cursor e
  = rows_loop s (fetched s connected cursor) e.
Proof.
  unfold get_worksheet_rows, fetched.
  destruct (connected && _); [|reflexivity]. by destruct cursor.
Qed.

(** X1. When the generator ends normally, the number of records it has
    yielded is the number of fetched rows plus the number of fetched rows
    without a name; without a connection, a sheet name or a cursor nothing is
    fetched and nothing is yielded. *)
Theorem yielded_record_count s connected cursor e ys e' :
  get_worksheet_rows s connected cursor e = (ys, Ok e') ->
  length ys
  = (length (fetched s connected cursor)
     + length (filter (fun row => unnamed s row = true)
                 (fetched s connected cursor)))%nat.
Proof.
  rewrite get_worksheet_rows_loop. apply rows_loop_length.
Qed.

(** ** The log *)

Lemma logged_row_step s row e : logged 1 e (final (snd (row_step s row e))).
Proof.
  unfold row_step. cbv zeta. destruct (negb _).
  { exists [name_not_found]. by split. }
  destruct (named_row_final (fun a c => log_file c = log_file a) s row
              (to_string (column s row imageTextureSelector)) (reset_locals e))
    as (e8 & H8 & [Hrow|Hrow]);
    [ done
    | intros; congruence
    | done
    | intros; apply (quiet_image_section s row)
    | intros; apply (quiet_frame_section s row)
    | intros; apply (quiet_matboard_section s row)
    | intros; apply (quiet_glass_section s row)
    | intros; apply (quiet_symbol_section s row)
    | intros; apply (quiet_class_section s row)
    | intros; apply (record_only_metadata_section s row)
    | rewrite Hrow; cbn [snd final] ..].
  - unfold report. destruct (negb _).
    + eexists [_]. cbn [log_file assign write]. rewrite H8. by split.
    + exists []. rewrite H8, app_nil_r. split; [done | cbn; lia].
  - exists []. rewrite H8, app_nil_r. split; [done | cbn; lia].
Qed.

Lemma logged_rows_loop s rows e :
  logged (length rows) e (final (snd (rows_loop s rows e))).
Proof.
  revert e. induction rows as [|row rows IH]; intros e; cbn [rows_loop length].
  - exists []. by rewrite app_nil_r.
  - destruct (logged_row_step s row e) as (l1 & H1 & Hn1).
    destruct (row_step s row e) as [ys [e1|x e1]]; cbn [snd final] in H1.
    + destruct (IH e1) as (l2 & H2 & Hn2).
      destruct (rows_loop s rows e1) as [ys' o]. cbn [snd] in *.
      exists (l1 ++ l2)%list. rewrite H2, H1, app_assoc, length_app.
      split; [done | lia].
    + exists l1. split; [done | lia].
Qed.

(** X2. The generator only appends to the log, and at most one line for
    each fetched row, however it ends: the log afterwards is the log before
    followed by no more lines than there are fetched rows. *)
Theorem log_is_appended_to s connected cursor e :
  logged (length (fetched s connected cursor)) e
    (final (snd (get_worksheet_rows s connected cursor e))).
Proof. rewrite get_worksheet_rows_loop. apply logged_rows_loop. Qed.

(** ** The host document *)

(** X3. Whatever the rows hold and however the generator ends, the class
    that is active in the host afterwards is the class that was active
    before: every creation of a class restores it. *)
Theorem active_class_is_restored s connected cursor e :
  ActiveClass (host (final (snd (get_worksheet_rows s connected cursor e))))
  = ActiveClass (host e).
Proof. rewrite get_worksheet_rows_loop. apply (hosted_rows_loop s). Qed.

(** X4. With [createMissingClasses] off the generator leaves the host as it
    found it: it looks classes up and never names one. *)
Theorem host_untouched_without_creation s connected cursor e :
  createMissingClasses s = false ->
  host (final (snd (get_worksheet_rows s connected cursor e))) = host e.
Proof.
  intros Hoff. rewrite get_worksheet_rows_loop.
  by apply (hosted_rows_loop s).
Qed.

(** ** The metadata record *)

Lemma unrecorded_row_step s row e :
  unrecorded s e (final (snd (row_step s row e))).
Proof.
  intros Hoff. unfold row_step. cbv zeta. destruct (negb _); [done|].
  destruct (named_row_final (fun a c => pictureRecord c = pictureRecord a) s row
              (to_string (column s row imageTextureSelector)) (reset_locals e))
    as (e8 & H8 & [Hrow|Hrow]);
    [ done
    | intros; congruence
    | done
    | intros; apply (quiet_image_section s row)
    | intros; apply (quiet_frame_section s row)
    | intros; apply (quiet_matboard_section s row)
    | intros; apply (quiet_glass_section s row)
    | intros; apply (quiet_symbol_section s row)
    | intros; apply (quiet_class_section s row)
    | intros; by rewrite metadata_section_off
    | rewrite Hrow; cbn [snd final] ..].
  - unfold report. by destruct (negb _).
  - exact H8.
Qed.

Lemma unrecorded_rows_loop s rows e :
  unrecorded s e (final (snd (rows_loop s rows e))).
Proof.
  intros Hoff. revert e.
  induction rows as [|row rows IH]; intros e; cbn [rows_loop]; [done|].
  pose proof (unrecorded_row_step s row e Hoff) as H1.
  destruct (row_step s row e) as [ys [e1|x e1]]; cbn [snd final] in H1.
  - specialize (IH e1). destruct (rows_loop s rows e1) as [ys' o].
    cbn [snd] in *. congruence.
  - exact H1.
Qed.

(** X5. Unless [metaImportMetadata] is ["True"], the generator never
    assigns an attribute of [settings.pictureRecord]. *)
Theorem metadata_record_untouched_when_off s connected cursor e :
  String.eqb (metaImportMetadata s) "True" = false ->
  pictureRecord (final (snd (get_worksheet_rows s connected cursor e)))
  = pictureRecord e.
Proof.
  intros Hoff. rewrite get_worksheet_rows_loop.
  by apply unrecorded_rows_loop.
Qed.

(** ** The locals *)

(** X6. The messages and the validity flag are local to a row: a row does
    the same, and leaves the same state, from two states that agree on the
    record, the metadata record, the host and the log, whatever messages and
    flag the row before left. *)
Theorem locals_do_not_carry_over s row e1 e2 :
  picture e1 = picture e2 ->
  pictureRecord e1 = pictureRecord e2 ->
  host e1 = host e2 ->
  log_file e1 = log_file e2 ->
  row_step s row e1 = row_step s row e2.
Proof.
  intros Hp Hr Hh Hl. unfold row_step. cbv zeta.
  assert (reset_locals e1 = reset_locals e2) as ->; [|reflexivity].
  unfold reset_locals. by rewrite Hp, Hr, Hh, Hl.
Qed.

(** ** When the body raises *)

Lemma frame_flag_on s row e :
  is_str
    (picture
       (presence_flag withFrameSelector withFrame present_if_not_None s row e)
       withFrame) "True"
  = frame_on s row.
Proof.
  unfold presence_flag, frame_on.
  destruct (is_manual s withFrameSelector); cbn [picture assign];
    rewrite setattr_same; [reflexivity|].
  by destruct (present_if_not_None _).
Qed.

Lemma frame_section_outcome s row e :
  if frame_key_missing s && frame_on s row
  then exists e3, frame_section s row e = Raise AttributeError e3
  else exists e3, frame_section s row e = Ok e3.
Proof.
  unfold frame_section. cbv zeta. rewrite frame_flag_on.
  unfold frame_key_missing, frame_thickness_cell.
  destruct (frame_on s row); [|rewrite andb_false_r; by eexists].
  rewrite andb_true_r.
  destruct (is_manual s frameThicknessSelector); cbn [negb andb]; [by eexists|].
  destruct (pictureParameters_frameThicknessSelector s); by eexists.
Qed.

Lemma symbol_section_outcome s row e :
  if folder_not_text s row
  then exists e6, symbol_section s row e = Raise AttributeError e6
  else exists e6, symbol_section s row e = Ok e6.
Proof.
  unfold folder_not_text, symbol_section. cbv zeta.
  destruct (String.eqb (symbolCreateSymbol s) "True"); [|by eexists].
  destruct (is_manual s symbolFolderSelector); [by eexists|].
  destruct (truthy (column s row symbolFolderSelector)); [|by eexists].
  destruct (column s row symbolFolderSelector); cbn [andb negb]; by eexists.
Qed.

Lemma named_row_outcome s row name e :
  if (frame_key_missing s && frame_on s row) || folder_not_text s row
  then exists e', named_row s row name e = Raise AttributeError e'
  else exists e', named_row s row name e = Ok e'.
Proof.
  unfold named_row. cbv zeta.
  pose proof (frame_section_outcome s row
                (image_section s row (assign pictureName name e))) as Hframe.
  destruct (frame_key_missing s && frame_on s row).
  - destruct Hframe as [e3 ->]. cbn [orb bind]. by eexists.
  - destruct Hframe as [e3 ->]. cbn [orb bind].
    pose proof (symbol_section_outcome s row
                  (glass_section s row (matboard_section s row e3))) as Hsymbol.
    destruct (folder_not_text s row); destruct Hsymbol as [e6 ->];
      cbn [bind]; by eexists.
Qed.

Lemma row_step_outcome s row e :
  if raises s row
  then exists e',
      row_step s row e = ([], Raise AttributeError e')
      /\ log_file e' = log_file e
  else exists ys e', row_step s row e = (ys, Ok e').
Proof.
  unfold raises.
  destruct (unnamed s row) eqn:Hname; cbn [negb andb].
  - rewrite (row_step_unnamed s row e Hname). by eexists _, _.
  - rewrite (row_step_named s row e Hname).
    pose proof (named_row_outcome s row
                  (to_string (column s row imageTextureSelector))
                  (reset_locals e)) as Hout.
    destruct ((frame_key_missing s && frame_on s row) || folder_not_text s row).
    + destruct Hout as [e' Hrow]. rewrite Hrow. exists e'. split; [done|].
      pose proof (logged_row_step s row e) as (lines & Hlog & Hlen).
      rewrite (row_step_named s row e Hname), Hrow in Hlog.
      cbn [snd final] in Hlog.
      destruct (named_row_final (fun a c => log_file c = log_file a) s row
                  (to_string (column s row imageTextureSelector))
                  (reset_locals e))
        as (e8 & H8 & [Hok|Hraise]);
        [ done
        | intros; congruence
        | done
        | intros; apply (quiet_image_section s row)
        | intros; apply (quiet_frame_section s row)
        | intros; apply (quiet_matboard_section s row)
        | intros; apply (quiet_glass_section s row)
        | intros; apply (quiet_symbol_section s row)
        | intros; apply (quiet_class_section s row)
        | intros; apply (record_only_metadata_section s row)
        | congruence
        | ].
      rewrite Hrow in Hraise. by injection Hraise as <-.
    + destruct Hout as [e' ->]. by eexists _, _.
Qed.

(** X7. Whether a row makes the body raise is decided by the settings and
    the row alone, not by the state: it raises [AttributeError] exactly when
    the row has a name and either the frame is on while the frame thickness
    comes from a column and [settings.pictureParameters] has no attribute
    [frameThicknessSelector] (line 273), or the symbol folder cell is a
    number other than zero (line 479). A row that raises yields nothing and
    writes nothing to the log; every other row returns normally. *)
Theorem row_raises_exactly_when s row e :
  if raises s row
  then exists e',
      row_step s row e = ([], Raise AttributeError e')
      /\ log_file e' = log_file e
  else exists ys e', row_step s row e = (ys, Ok e').
Proof. apply row_step_outcome. Qed.

Lemma rows_loop_ends_normally_iff s rows e :
  (exists ys e', rows_loop s rows e = (ys, Ok e'))
  <-> existsb (raises s) rows = false.
Proof.
  revert e. induction rows as [|row rows IH]; intros e; cbn [rows_loop existsb].
  - split; [done | by eexists _, _].
  - pose proof (row_step_outcome s row e) as Hrow.
    destruct (raises s row); cbn [orb].
    + destruct Hrow as (e1 & -> & _). split; [|done].
      by intros (ys & e' & [=]).
    + destruct Hrow as (ys1 & e1 & ->). rewrite <- (IH e1).
      destruct (rows_loop s rows e1) as [ys2 o]. split.
      * intros (ys & e' & [= <- ->]). by eexists _, _.
      * intros (ys & e' & [= <- ->]). by eexists _, _.
Qed.

(** X8. The generator runs to the end of the fetched rows exactly when no
    fetched row is one that raises; whether it does is known from the
    settings and the rows before it starts. *)
Theorem generator_ends_normally_iff s connected cursor e :
  (exists ys e', get_worksheet_rows s connected cursor e = (ys, Ok e'))
  <-> existsb (raises s) (fetched s connected cursor) = false.
Proof. rewrite get_worksheet_rows_loop. apply rows_loop_ends_normally_iff. Qed.

(** X9. The first row that raises ends the generator: the records yielded
    are those of the rows before it, no line is written for it, and the rows
    after it are not processed, whatever they are. *)
Theorem first_raising_row_stops_the_loop s pre row rest e :
  existsb (raises s) pre = false ->
  raises s row = true ->
  exists ys e1 e',
    rows_loop s pre e = (ys, Ok e1)
    /\ rows_loop s (pre ++ row :: rest) e = (ys, Raise AttributeError e')
    /\ log_file e' = log_file e1.
Proof.
  intros Hpre Hrow.
  apply (rows_loop_ends_normally_iff s pre e) in Hpre as (ys & e1 & Hloop).
  pose proof (row_step_outcome s row e1) as Hstep. rewrite Hrow in Hstep.
  destruct Hstep as (e' & Hstep & Hlog).
  exists ys, e1, e'. split; [exact Hloop|]. split; [|exact Hlog].
  rewrite rows_loop_app, Hloop. cbn [rows_loop]. rewrite Hstep.
  cbv beta iota. by rewrite app_nil_r.
Qed.

(** ** The empty name as the mark of a row that failed *)

Lemma to_string_truthy v :
  truthy (to_string v) = true -> exists t, to_string v = VStr t /\ t <> "".
Proof.
  assert (Hstr : forall t, truthy (VStr t) = true -> t <> "").
  { intros t Ht ->. discriminate. }
  destruct v as [|t|z|x]; cbn [to_string]; [discriminate|..];
    try destruct (frac_is_zero x); intros Ht; eexists; split;
    first [reflexivity | by apply Hstr].
Qed.

(** X10. In the record a row yields, the name is empty exactly when the row
    had no name or was marked invalid; the record of any other row carries
    the text of its name cell, which is not empty. *)
Theorem empty_name_marks_failed_rows s row e ys e' :
  row_step s row e = (ys, Ok e') ->
  (picture e' pictureName = VStr ""
   <-> unnamed s row = true \/ valid_picture e' = false)
  /\ (picture e' pictureName = VStr ""
      \/ picture e' pictureName = to_string (column s row imageTextureSelector)).
Proof.
  destruct (unnamed s row) eqn:Hname.
  - rewrite (row_step_unnamed s row e Hname). cbv zeta. intros [= <- <-].
    cbn [picture assign]. rewrite setattr_same. split; [|by left].
    split; [by left | done].
  - rewrite (row_step_named s row e Hname).
    destruct (named_row s row _ _) as [e1|x e1] eqn:Hrow; [|discriminate].
    intros [= <- <-].
    apply named_row_Ok in Hrow as (e8 & Hbefore & ->).
    pose proof (before_report_name _ _ _ _ _ Hbefore) as Hn.
    assert (Htruthy : truthy (to_string (column s row imageTextureSelector))
                      = true).
    { unfold unnamed in Hname. by apply negb_false_iff in Hname. }
    destruct (to_string_truthy _ Htruthy) as (t & Ht & Hne).
    unfold report. destruct (valid_picture e8) eqn:Hvalid; cbn [negb].
    + rewrite Hn, Ht, Hvalid. split; [|by right].
      split; [intros [= ?]; congruence | intros [?|?]; discriminate].
    + cbn [picture assign valid_picture write]. rewrite setattr_same, Hvalid.
      split; [|by left]. split; [by right | done].
Qed.

(** ** The stages of a row and its flags *)

Lemma grows_frame_section s row e : grows e (final (frame_section s row e)).
Proof.
  unfold frame_section. destruct (is_str _ _); [|cbn; grow].
  destruct (frame_thickness_cell s row); cbn; grow.
Qed.

Lemma grows_matboard_section s row e : grows e (matboard_section s row e).
Proof.
  unfold matboard_section, matboard_details, window_width_field,
    window_height_field.
  destruct (is_str _ _); grow.
Qed.

(** The flags of the yielded record are the flags each section left. *)
Lemma named_row_flags s row name e e' :
  named_row s row name e = Ok e' ->
  exists e3 e6,
    frame_section s row (image_section s row (assign pictureName name e)) = Ok e3
    /\ symbol_section s row (glass_section s row (matboard_section s row e3))
       = Ok e6
    /\ e' = report name (metadata_section s row (class_section s row e6))
    /\ picture e' withImage
       = picture (image_section s row (assign pictureName name e)) withImage
    /\ picture e' withFrame = picture e3 withFrame
    /\ picture e' withMatboard = picture (matboard_section s row e3) withMatboard
    /\ picture e' withGlass
       = picture (glass_section s row (matboard_section s row e3)) withGlass.
Proof.
  intros Hrow.
  apply named_row_Ok in Hrow as (e8 & (e3 & e6 & H3 & H6 & ->) & ->).
  exists e3, e6. split; [exact H3|]. split; [exact H6|]. split; [reflexivity|].
  destruct (row_tail s row name _ _ H6) as [Ttail _]. cbv zeta in Ttail.
  pose proof (touches_frame_section s row
                (image_section s row (assign pictureName name e))) as T3.
  rewrite H3 in T3. cbn [final] in T3.
  pose proof (touches_matboard_section s row e3) as T4.
  pose proof (touches_symbol_section s row
                (glass_section s row (matboard_section s row e3))) as T6.
  rewrite H6 in T6. cbn [final] in T6.
  split; [by rewrite (Ttail withImage eq_refl), (T4 withImage eq_refl),
               (T3 withImage eq_refl)|].
  split; [by rewrite (Ttail withFrame eq_refl), (T4 withFrame eq_refl)|].
  split; [by rewrite (Ttail withMatboard eq_refl)|].
  rewrite (touches_report name_field name _ eq_refl withGlass eq_refl).
  rewrite (touches_metadata_section s row _ withGlass eq_refl).
  rewrite (touches_class_section s row e6 withGlass eq_refl).
  by rewrite (T6 withGlass eq_refl).
Qed.

(** A section whose flag is not ["True"] has only assigned the flag. *)
Lemma after_section_off c s row e :
  is_str (picture (after_section c s row e) (flag_of c)) "True" = false ->
  after_section c s row e
  = presence_flag (flag_selector c) (flag_of c) (present_test c) s row e.
Proof.
  intros Hoff. rewrite after_section_flag in Hoff.
  destruct c; cbn [after_section flag_of flag_selector present_test] in *.
  - unfold image_section. cbv zeta. by rewrite Hoff.
  - unfold frame_section. cbv zeta. by rewrite Hoff.
  - unfold matboard_section. cbv zeta. by rewrite Hoff.
  - unfold glass_section. cbv zeta. by rewrite Hoff.
Qed.

Lemma steady_refl e : steady e e.
Proof. by split. Qed.

Lemma steady_trans e1 e2 e3 : steady e1 e2 -> steady e2 e3 -> steady e1 e3.
Proof.
  intros [V12 M12] [V23 M23]. split; [congruence|].
  intros b. by rewrite M23.
Qed.

Lemma steady_after_section_off c s row e :
  is_str (picture (after_section c s row e) (flag_of c)) "True" = false ->
  steady e (after_section c s row e).
Proof.
  intros Hoff. rewrite (after_section_off c s row e Hoff).
  unfold presence_flag. destruct (is_manual _ _); split; by try intros [].
Qed.

Lemma steady_symbol_section s row e :
  steady e (final (symbol_section s row e)).
Proof.
  unfold symbol_section.
  destruct (String.eqb _ _); [|by split; try intros []].
  destruct (is_manual _ _); [by split; try intros []|].
  destruct (truthy _); [|by split; try intros []].
  destruct (column _ _ _); by split; try intros [].
Qed.

Lemma steady_class_section s row e : steady e (class_section s row e).
Proof.
  unfold class_section. destruct (String.eqb _ _); by split; try intros [].
Qed.

Lemma steady_metadata_section s row e : steady e (metadata_section s row e).
Proof.
  destruct (record_only_metadata_section s row e) as (_ & _ & _ & HV & HM).
  by split.
Qed.

Lemma steady_report name e : steady e (report name e).
Proof. unfold report. destruct (negb _); by split; try intros []. Qed.

(** X11. A picture whose four components are all off in the yielded record
    is valid whatever its other cells hold: no cell of a component that is
    off is validated, nothing is written to the log and the record keeps its
    name. *)
Theorem picture_without_components_is_valid s row e ys e' :
  unnamed s row = false ->
  row_step s row e = (ys, Ok e') ->
  (forall c, is_str (picture e' (flag_of c)) "True" = false) ->
  valid_picture e' = true
  /\ log_file e' = log_file e
  /\ picture e' pictureName = to_string (column s row imageTextureSelector).
Proof.
  intros Hname Hstep Hoff.
  rewrite (row_step_named s row e Hname) in Hstep.
  destruct (named_row s row _ _) as [e1|x e1] eqn:Hrow; [|discriminate].
  injection Hstep as <- <-.
  set (name := to_string (column s row imageTextureSelector)) in *.
  destruct (named_row_flags s row name _ _ Hrow)
    as (e3 & e6 & H3 & H6 & He' & Fimage & Fframe & Fmat & Fglass).
  pose proof (Hoff Image) as O1. pose proof (Hoff Frame) as O2.
  pose proof (Hoff Matboard) as O3. pose proof (Hoff Glass) as O4.
  cbn [flag_of] in O1, O2, O3, O4.
  rewrite Fimage in O1. rewrite Fframe in O2. rewrite Fmat in O3.
  rewrite Fglass in O4.
  set (e0 := assign pictureName name (reset_locals e)) in *.
  pose proof (steady_after_section_off Image s row e0 O1) as S2.
  assert (O2' : is_str (picture (after_section Frame s row
                                   (image_section s row e0)) withFrame) "True"
                = false).
  { cbn [after_section]. by rewrite H3. }
  pose proof (steady_after_section_off Frame s row _ O2') as S3.
  cbn [after_section] in S2, S3. rewrite H3 in S3. cbn [final] in S3.
  pose proof (steady_after_section_off Matboard s row e3 O3) as S4.
  pose proof (steady_after_section_off Glass s row _ O4) as S5.
  cbn [after_section] in S4, S5.
  pose proof (steady_symbol_section s row
                (glass_section s row (matboard_section s row e3))) as S6.
  rewrite H6 in S6. cbn [final] in S6.
  assert (S8 : steady e0 (metadata_section s row (class_section s row e6))).
  { eapply steady_trans; [|apply steady_metadata_section].
    eapply steady_trans; [|apply steady_class_section].
    eapply steady_trans; [|exact S6]. eapply steady_trans; [|exact S5].
    eapply steady_trans; [|exact S4]. eapply steady_trans; [exact S2|exact S3]. }
  assert (Hvalid : valid_picture (metadata_section s row (class_section s row e6))
                   = true) by (by rewrite (proj1 S8)).
  assert (Hbefore : before_report s row name (reset_locals e)
                      (metadata_section s row (class_section s row e6)))
    by (by exists e3, e6).
  subst e1. unfold report. rewrite Hvalid. cbn [negb].
  split; [exact Hvalid|]. split.
  - by rewrite (before_report_log _ _ _ _ _ Hbefore).
  - by apply (before_report_name _ _ _ _ _ Hbefore).
Qed.

(** ** A valid row with an image *)

Lemma numeric_field_valid target b label cell e :
  valid_picture (numeric_field target b label cell e) = true ->
  exists n,
    validated cell = Some n
    /\ numeric_field target b label cell e
       = assign target (VStr (str_number (round3 n))) e
    /\ valid_picture e = true.
Proof.
  unfold numeric_field. destruct (validated cell) as [n|]; [|discriminate].
  intros Hv. by exists n.
Qed.

(** X12. In the record of a valid row whose image is on, the three image
    attributes are the rounded values of this row: the width and the height
    cells and the position (cell or manual value) all validate, and the
    record holds their renderings, not what an earlier row left. *)
Theorem valid_row_has_its_own_image_fields s row e ys e' :
  unnamed s row = false ->
  row_step s row e = (ys, Ok e') ->
  valid_picture e' = true ->
  is_str (picture e' withImage) "True" = true ->
  exists w h p,
    validated (column s row imageWidthSelector) = Some w
    /\ validated (column s row imageHeightSelector) = Some h
    /\ validated (manual_or_column s row imagePositionSelector imagePosition)
       = Some p
    /\ picture e' imageWidth = VStr (str_number (round3 w))
    /\ picture e' imageHeight = VStr (str_number (round3 h))
    /\ picture e' imagePosition = VStr (str_number (round3 p)).
Proof.
  intros Hname Hstep Hvalid Hon.
  rewrite (row_step_named s row e Hname) in Hstep.
  destruct (named_row s row _ _) as [e1|x e1] eqn:Hrow; [|discriminate].
  injection Hstep as <- <-.
  set (name := to_string (column s row imageTextureSelector)) in *.
  destruct (named_row_flags s row name _ _ Hrow)
    as (e3 & e6 & H3 & H6 & He' & Fimage & _).
  set (e0 := assign pictureName name (reset_locals e)) in *.
  destruct (row_tail s row name _ _ H6) as [Ttail Gtail].
  cbv zeta in Ttail, Gtail. rewrite <- He' in Ttail, Gtail.
  pose proof (touches_frame_section s row (image_section s row e0)) as T3.
  pose proof (grows_frame_section s row (image_section s row e0)) as G3.
  rewrite H3 in T3, G3. cbn [final] in T3, G3.
  pose proof (touches_matboard_section s row e3) as T4.
  pose proof (grows_matboard_section s row e3) as G4.
  assert (Hfield : forall f, image_details f = true ->
                     picture e1 f = picture (image_section s row e0) f).
  { intros f Hf.
    rewrite (Ttail f) by (by destruct f).
    rewrite (T4 f) by (by destruct f).
    apply T3. by destruct f. }
  assert (Hvalid2 : valid_picture (image_section s row e0) = true).
  { destruct (valid_picture (image_section s row e0)) eqn:E; [done|].
    apply (proj1 G3) in E. apply (proj1 G4) in E. apply (proj1 Gtail) in E.
    congruence. }
  rewrite Fimage in Hon.
  pose proof (after_section_flag Image s row e0) as Hflag.
  cbn [after_section flag_of flag_selector] in Hflag. rewrite Hflag in Hon.
  rewrite !Hfield by done.
  revert Hvalid2. unfold image_section. cbv zeta. rewrite Hon.
  intros Hv.
  apply numeric_field_valid in Hv as (p & Hp & -> & Hv).
  apply numeric_field_valid in Hv as (h & Hh & -> & Hv).
  apply numeric_field_valid in Hv as (w & Hw & -> & _).
  exists w, h, p. cbn [picture assign].
  rewrite setattr_same.
  rewrite (setattr_other _ imagePosition imageHeight) by done.
  rewrite setattr_same.
  rewrite (setattr_other _ imagePosition imageWidth) by done.
  rewrite (setattr_other _ imageHeight imageWidth) by done.
  rewrite setattr_same. by repeat split.
Qed.

(** ** The rule of a class reference *)

(** X13. The frame and the matboard class of a column follow one rule. A
    cell that names an existing resource is assigned and nothing else
    happens. A cell that names nothing is, with [createMissingClasses] on,
    created by [NameClass] on the cell and then on the class that was active,
    and assigned, the row staying as valid as it was; with it off the class
    attribute and the host are left alone, the text
    ["<label> (<cell>)"] is appended to the section's messages and the row is
    marked invalid. *)
Theorem class_reference_rule sel f b label s row e :
  is_manual s sel = false ->
  let cell := column s row sel in
  let e' := class_field sel f b label s row e in
  if GetObject (host e) cell =? 0 then
    if createMissingClasses s then
      host e' = NameClass (NameClass (host e) cell) (VStr (ActiveClass (host e)))
      /\ ActiveClass (host e') = ActiveClass (host e)
      /\ picture e' f = cell
      /\ valid_picture e' = valid_picture e
      /\ message b e' = message b e
    else
      host e' = host e
      /\ picture e' = picture e
      /\ valid_picture e' = false
      /\ message b e' = message b e ++ format_message label cell
  else e' = assign f cell e.
Proof.
  intros Hcol. cbv zeta.
  destruct (GetObject (host e) (column s row sel) =? 0) eqn:Hget.
  - apply Z.eqb_eq in Hget.
    destruct (createMissingClasses s) eqn:Hcreate.
    + destruct (class_field_creates sel f b label s row e Hcol Hcreate Hget)
        as (H1 & H2 & H3 & H4 & H5).
      by repeat split.
    + unfold class_field. rewrite Hcol, Hget, Hcreate. cbn [Z.eqb].
      repeat split. by destruct b.
  - apply Z.eqb_neq in Hget. by apply class_field_exists.
Qed.

(** ** Which rows have a name *)

Lemma append_nonempty_l (t u : string) : t <> "" -> t ++ u <> "".
Proof. destruct t; [done|]. intros _. discriminate. Qed.

Lemma append_nonempty_r (t u : string) : u <> "" -> t ++ u <> "".
Proof.
  intros Hu. destruct t as [|c t]; [exact Hu|]. discriminate.
Qed.

Lemma str_int_nonempty z : str_int z <> "".
Proof.
  unfold str_int. destruct (Z.to_int z) as [d|d]; cbn.
  - by destruct d.
  - discriminate.
Qed.

Lemma str_float_nonempty x : str_float x <> "".
Proof.
  unfold str_float. cbv zeta.
  destruct (fmant x =? 0)%N.
  - by apply append_nonempty_r.
  - destruct (_ || _).
    + do 3 apply append_nonempty_r. by apply append_nonempty_l.
    + do 2 apply append_nonempty_r. by apply append_nonempty_l.
Qed.

(** X14. A row is without a name exactly when its name cell is None or the
    empty str: every number is a name, the numbers 0 and 0.0 included. *)
Theorem unnamed_iff_no_text s row :
  unnamed s row = true
  <-> column s row imageTextureSelector = VNone
      \/ column s row imageTextureSelector = VStr "".
Proof.
  unfold unnamed. rewrite negb_true_iff.
  destruct (column s row imageTextureSelector) as [|t|z|x];
    cbn [to_string truthy].
  - split; [by left | done].
  - rewrite negb_false_iff. split.
    + intros ->%String.eqb_eq. by right.
    + intros [?|[= ->]]; [done | reflexivity].
  - rewrite negb_false_iff. split; [|by intros [?|?]].
    intros H%String.eqb_eq. by destruct (str_int_nonempty z).
  - split; [|by intros [?|?]].
    destruct (frac_is_zero x); cbn [truthy]; rewrite negb_false_iff;
      intros H%String.eqb_eq;
      [by destruct (str_int_nonempty (int_of_float x))
      | by destruct (str_float_nonempty x)].
Qed.

(** ** The symbol folder *)

Lemma has_whitespace_translate t : has_whitespace (translate_whitespace t) = false.
Proof.
  induction t as [|c t IH]; [reflexivity|].
  cbn [translate_whitespace has_whitespace]. rewrite IH, orb_false_r.
  destruct (is_whitespace c) eqn:E; [reflexivity | exact E].
Qed.

Lemma length_translate t :
  String.length (translate_whitespace t) = String.length t.
Proof.
  induction t as [|c t IH]; [reflexivity|].
  cbn [translate_whitespace String.length]. by rewrite IH.
Qed.

Lemma replace_double_underscore_cons c c' r' :
  replace_double_underscore (String c (String c' r'))
  = if (Ascii.eqb c "_" && Ascii.eqb c' "_")%bool
    then String "_" (replace_double_underscore r')
    else String c (replace_double_underscore (String c' r')).
Proof. reflexivity. Qed.

Lemma replace_double_underscore_bounded n t :
  (String.length t <= n)%nat ->
  (has_whitespace t = false ->
   has_whitespace (replace_double_underscore t) = false)
  /\ (String.length (replace_double_underscore t) <= String.length t)%nat.
Proof.
  revert t. induction n as [|n IH]; intros t Hn.
  - destruct t; [by split | cbn in Hn; lia].
  - destruct t as [|c [|c' r']]; [by split | by split |].
    rewrite replace_double_underscore_cons.
    cbn [String.length] in Hn.
    destruct (Ascii.eqb c "_" && Ascii.eqb c' "_")%bool.
    + destruct (IH r' ltac:(lia)) as [Hw Hl]. split.
      * cbn [has_whitespace]. intros H.
        apply orb_false_iff in H as [_ H].
        apply orb_false_iff in H as [_ H].
        rewrite (Hw H). reflexivity.
      * cbn [String.length]. lia.
    + destruct (IH (String c' r') ltac:(cbn [String.length]; lia)) as [Hw Hl].
      split.
      * intros H. change (has_whitespace (String c (String c' r')))
          with (is_whitespace c || has_whitespace (String c' r')) in H.
        apply orb_false_iff in H as [Hc H].
        cbn [has_whitespace]. by rewrite Hc, (Hw H).
      * cbn [String.length] in *. lia.
Qed.

Lemma folder_name_clean text :
  has_whitespace (folder_name text) = false
  /\ (String.length (folder_name text) <= String.length text)%nat.
Proof.
  unfold folder_name.
  destruct (replace_double_underscore_bounded
              (String.length (translate_whitespace text))
              (translate_whitespace text) ltac:(lia)) as [Hw Hl].
  split; [apply Hw, has_whitespace_translate|].
  by rewrite length_translate in Hl.
Qed.

(** X15. With symbols created and the folder read from a column, a folder
    cell with text gives the symbol folder the derived name followed by
    [" Folder"]; the derived name has no whitespace character and is not
    longer than the text of the cell. A folder cell that is the empty str
    leaves [symbolFolder] as it was. *)
Theorem symbol_folder_from_text s row e text :
  String.eqb (symbolCreateSymbol s) "True" = true ->
  is_manual s symbolFolderSelector = false ->
  column s row symbolFolderSelector = VStr text ->
  has_whitespace (folder_name text) = false
  /\ (String.length (folder_name text) <= String.length text)%nat
  /\ symbol_section s row e
     = Ok (if String.eqb text "" then assign createSymbol (VStr "True") e
           else assign symbolFolder (VStr (folder_name text ++ " Folder"))
                  (assign createSymbol (VStr "True") e)).
Proof.
  intros Hcreate Hcol Hcell.
  destruct (folder_name_clean text) as [Hw Hl].
  split; [exact Hw|]. split; [exact Hl|].
  unfold symbol_section. cbv zeta. rewrite Hcreate, Hcol, Hcell.
  cbn [truthy]. by destruct (String.eqb text "").
Qed.

(** ** The class and the symbol of a picture *)

Lemma symbol_section_fields s row e e6 :
  symbol_section s row e = Ok e6 ->
  picture e6 createSymbol
  = VStr (if String.eqb (symbolCreateSymbol s) "True" then "True" else "False")
  /\ (String.eqb (symbolCreateSymbol s) "True" = false ->
      picture e6 symbolFolder = VStr "").
Proof.
  unfold symbol_section. destruct (String.eqb (symbolCreateSymbol s) "True").
  - cbv zeta. destruct (is_manual _ _).
    + intros [= <-]. split; [|done]. cbn [picture assign].
      rewrite setattr_other by done. apply setattr_same.
    + destruct (truthy _).
      * destruct (column _ _ _); intros [= <-]. split; [|done].
        cbn [picture assign]. rewrite setattr_other by done. apply setattr_same.
      * intros [= <-]. split; [|done]. cbn [picture assign]. apply setattr_same.
  - intros [= <-]. cbn [picture assign]. split.
    + rewrite setattr_other by done. apply setattr_same.
    + intros _. apply setattr_same.
Qed.

(** X19. In the record of a row that has a name, whether the row is valid or
    not: with [classAssignPictureClass] on, [pictureClass] is the cell (or
    the manual value) as it is, not validated and not turned into text, and
    with it off it is what the row found; [createSymbol] is ["True"] or
    ["False"] as [symbolCreateSymbol] is ["True"] or not, and with symbols
    off [symbolFolder] is the empty str. *)
Theorem class_and_symbol_of_a_named_row s row e ys e' :
  unnamed s row = false ->
  row_step s row e = (ys, Ok e') ->
  picture e' pictureClass
  = (if String.eqb (classAssignPictureClass s) "True"
     then manual_or_column s row classClassPictureSelector pictureClass
     else picture e pictureClass)
  /\ picture e' createSymbol
     = VStr (if String.eqb (symbolCreateSymbol s) "True" then "True" else "False")
  /\ (String.eqb (symbolCreateSymbol s) "True" = false ->
      picture e' symbolFolder = VStr "").
Proof.
  intros Hname Hstep.
  rewrite (row_step_named s row e Hname) in Hstep.
  destruct (named_row s row _ _) as [e1|x e1] eqn:Hrow; [|discriminate].
  injection Hstep as <- <-.
  set (name := to_string (column s row imageTextureSelector)) in *.
  pose proof (named_row_carries_over s row name _ _ Hrow) as Hcarry.
  destruct (named_row_flags s row name _ _ Hrow)
    as (e3 & e6 & _ & H6 & He' & _).
  assert (Htail : forall f, f <> pictureName ->
            picture e1 f = picture (class_section s row e6) f).
  { intros f Hf. rewrite He'.
    rewrite (touches_report name_field) by (by destruct f).
    by apply touches_metadata_section. }
  apply symbol_section_fields in H6 as [Hcreate Hfolder].
  split; [|split].
  - destruct (String.eqb (classAssignPictureClass s) "True") eqn:Hclass.
    + rewrite Htail by done. unfold class_section. rewrite Hclass.
      cbn [picture assign]. apply setattr_same.
    + rewrite (Hcarry pictureClass) by (cbn [derived]; exact Hclass).
      reflexivity.
  - rewrite Htail by done.
    by rewrite (touches_class_section s row e6 createSymbol).
  - intros Hoff. rewrite Htail by done.
    rewrite (touches_class_section s row e6 symbolFolder) by done.
    by apply Hfolder.
Qed.

Lemma rows_loop_length_of s connected cursor e ys e' :
  get_worksheet_rows s connected cursor e = (ys, Ok e') ->
  length ys
  = (length (fetched s connected cursor)
     + length (filter (fun row => unnamed s row = true)
                 (fetched s connected cursor)))%nat.
Proof.
  rewrite get_worksheet_rows_loop. apply rows_loop_length.
Qed.

End Properties.

(** * Properties of the workbook methods *)

Section WorkbookProperties.

Context {W : Type} `{!Pyodbc W}.

Implicit Types (db : Database W) (x : ExcelSettings).

(** X16. On an object whose [connected] flag is backed by a workbook (as it
    is after [__init__]), [connect] does not raise and keeps it so; it
    returns the new value of [connected], which is True exactly when a file
    name is set and the driver opens it, the workbook then being the new
    connection; and the one connection it closes is the workbook of an
    object that was connected. *)
Theorem connect_keeps_the_workbook_live x db :
  live db ->
  exists db',
    connect x db = Return (db', connected db')
    /\ live db'
    /\ (connected db' = true
        <-> excelFileName x <> ""
            /\ exists w,
                driver_connect (connection_string (excelFileName x)) = inl w
                /\ workbook db' = Some w)
    /\ closed db'
       = (closed db ++ (if connected db then option_list (workbook db) else []))%list.
Proof.
  intros Hlive. unfold connect, disconnect, live in *.
  destruct (connected db) eqn:Hconn.
  - destruct (Hlive eq_refl) as [w0 Hw0]. rewrite Hw0.
    eexists. split; [reflexivity|]. unfold reconnect.
    cbn [excelFileName connected workbook closed].
    destruct (String.eqb_spec (excelFileName x) ""); cbn [negb].
    + cbn [connected closed]. split; [done|]. split; [|done].
      split; [done | by intros [? _]].
    + destruct (driver_connect _) as [w|msg] eqn:Hdrv;
        cbn [connected workbook closed].
      * split; [by eexists|]. split; [|done].
        split; [intros _; split; [done | by exists w] | done].
      * split; [done|]. split; [|done].
        split; [done | by intros (_ & w & [=] & _)].
  - eexists. split; [reflexivity|]. unfold reconnect.
    destruct (String.eqb_spec (excelFileName x) ""); cbn [negb].
    + rewrite Hconn, app_nil_r. split; [done|]. split; [|done].
      split; [done | by intros [? _]].
    + destruct (driver_connect _) as [w|msg] eqn:Hdrv;
        cbn [connected workbook closed]; rewrite ?app_nil_r.
      * split; [by eexists|]. split; [|done].
        split; [intros _; split; [done | by exists w] | done].
      * rewrite Hconn. split; [done|]. split; [|done].
        split; [done | by intros (_ & w & [=] & _)].
Qed.

(** X17. After a [connect] that returned False, the object gives nothing:
    [get_worksheets], [get_columns] and [get_criteria_values] return None,
    the row count is 0 and the generator yields no record and leaves the
    state as it is; none of them raises. *)
Theorem readers_after_failed_connect {VS : Type} `{!VectorScript VS}
    x db db' (e : Env VS) :
  connect x db = Return (db', false) ->
  get_worksheets db' = Return None
  /\ get_columns x db' = Return None
  /\ get_criteria_values x db' = Return None
  /\ get_worksheet_row_count x db' = Return 0%nat
  /\ worksheet_rows x db' e = Return ([], Ok e).
Proof.
  unfold connect. destruct (disconnect db) as [db1|]; [|discriminate].
  cbv zeta. intros [= <- Hconn].
  unfold get_worksheets, get_columns, get_criteria_values,
    get_worksheet_row_count, worksheet_rows, sheet_selected.
  rewrite Hconn. cbn [andb]. by repeat split.
Qed.

(** X18. The generator and [get_worksheet_row_count] run the same query:
    when both return, the count is the number of selected rows, and a
    generator that ends normally has yielded that many records plus one for
    every selected row without a name. *)
Theorem records_yielded_and_row_count {VS : Type} `{!VectorScript VS}
    x db (e : Env VS) n ys e' :
  get_worksheet_row_count x db = Return n ->
  worksheet_rows x db e = Return (ys, Ok e') ->
  n = length (selected_rows x db)
  /\ length ys
     = (n + length (filter (fun row => unnamed (import_settings x) row = true)
                     (selected_rows x db)))%nat.
Proof.
  unfold get_worksheet_row_count, worksheet_rows, selected_rows, with_cursor.
  destruct (sheet_selected x db) eqn:Hsel.
  - destruct (workbook db) as [w|]; [|discriminate].
    intros [= <-] [= Hrows].
    apply rows_loop_length_of in Hrows.
    unfold sheet_selected in Hsel. apply andb_true_iff in Hsel as [_ Hsheet].
    unfold fetched in Hrows. rewrite Hsheet in Hrows. cbn [andb] in Hrows.
    destruct (has_cursor w); cbn [default] in Hrows; by split.
  - intros [= <-] Hrows. unfold get_worksheet_rows in Hrows.
    cbn [andb] in Hrows. injection Hrows as <- _. by split.
Qed.


End WorkbookProperties.

Import Document Runs.

(** ** C1: a row without a name *)

Lemma unnamed_row_yields_two_records_witness :
  excelSheetName basic <> ""
  /\ unnamed basic nameless = true
  /\ exists e',
      get_worksheet_rows basic true (Some [nameless]) (start new_document)
      = ([picture e'; picture e'], Ok e')
      /\ length (fst (get_worksheet_rows basic true (Some [nameless])
                        (start new_document))) = 2%nat
      /\ picture e' pictureName = VStr ""
      /\ log_file e' = (log_file (start new_document) ++ [name_not_found])%list.
Proof.
  assert (H1 : excelSheetName basic <> "") by discriminate.
  assert (H2 : unnamed basic nameless = true) by (vm_compute; reflexivity).
  exact (conj H1 (conj H2
           (unnamed_row_yields_two_records basic nameless (start new_document)
              H1 H2))).
Defined.

(** ** C2: what a later row yields *)

(** The record yielded for [lisa], a picture without an image, has the image
    width of [mona] when [mona] was processed before, and the width of the
    new record when [lisa] is the first row. *)
Lemma later_record_keeps_earlier_width :
  map (shown [pictureName; withImage; imageWidth])
    (fst (run basic [mona; lisa] new_document))
  = [[VStr "Mona"; VStr "True"; VStr "10.0"];
     [VStr "Lisa"; VStr "False"; VStr "10.0"]]
  /\ map (shown [pictureName; withImage; imageWidth])
       (fst (run basic [lisa] new_document))
     = [[VStr "Lisa"; VStr "False"; VStr ""]].
Proof. split; vm_compute; reflexivity. Defined.

Lemma unassigned_attributes_carried_over_witness :
  row_step basic lisa after_mona
  = (fst (row_step basic lisa after_mona),
     Ok (last_state (row_step basic lisa after_mona)))
  /\ Forall (fun p => p = picture (last_state (row_step basic lisa after_mona)))
       (fst (row_step basic lisa after_mona))
  /\ forall f,
      assigned basic lisa
        (picture (last_state (row_step basic lisa after_mona))) f = false ->
      picture (last_state (row_step basic lisa after_mona)) f
      = picture after_mona f.
Proof.
  assert (H : row_step basic lisa after_mona
              = (fst (row_step basic lisa after_mona),
                 Ok (last_state (row_step basic lisa after_mona))))
    by (vm_compute; reflexivity).
  exact (conj H
           (unassigned_attributes_carried_over basic lisa after_mona _ _ H)).
Defined.

(** ** C3: the number 0 as a flag *)

(** All four flags read the int 0: only [withFrame] is ["True"]. *)
Lemma zero_switches_image_off :
  map (shown [withImage; withFrame; withMatboard; withGlass])
    (fst (run basic [zeros] new_document))
  = [[VStr "False"; VStr "True"; VStr "False"; VStr "False"]].
Proof. vm_compute. reflexivity. Defined.

Lemma presence_flag_from_column_witness :
  is_manual basic (flag_selector Image) = false
  /\ flag_rule (unset_cell Image) (column basic zeros (flag_selector Image))
       (picture (after_section Image basic zeros (start new_document))
          (flag_of Image)).
Proof.
  assert (H : is_manual basic (flag_selector Image) = false)
    by (vm_compute; reflexivity).
  exact (conj H
           (presence_flag_from_column Image basic zeros (start new_document) H)).
Defined.

(** ** C4: 7.0 *)



(** ** C5: the window of [matted] *)

(** The row as a whole: the window width is the image width and nothing is
    written to the log. *)
Lemma matted_window_is_image_width :
  map (shown [pictureName; imageWidth; windowWidth; windowHeight])
    (fst (run basic [matted] new_document))
  = [[VStr "Matted"; VStr "12.5"; VStr "12.5"; VStr "9"]]
  /\ log_file (last_state (run basic [matted] new_document)) = []
  /\ matboard_message (last_state (run basic [matted] new_document))
     = "- Missing window width, using image width instead".
Proof. repeat split; vm_compute; reflexivity. Qed.

Lemma window_size_falls_back_to_image_witness :
  validated (VS := document) (column basic matted (window_selector Width)) = None
  /\ forall e : Env document,
      window_fallback Width basic matted e (window_step Width basic matted e).
Proof.
  assert (H : validated (VS := document)
                (column basic matted (window_selector Width)) = None)
    by (vm_compute; reflexivity).
  exact (conj H
           (proj1 (window_size_falls_back_to_image (VS := document) Width basic
                     matted H))).
Defined.

(** ** C6: a glass class that exists *)

(** The class ["Crystal"] exists and the row asks for it; the new record has
    the glass class [""]. The row is reported with "No such Glass Class" and
    the class is not assigned. *)
Lemma existing_glass_class_is_rejected :
  map (shown [pictureName; glassClass])
    (fst (run basic [glazed "Mona" "Crystal"] crystal_document))
  = [[VStr ""; VStr ""]]
  /\ log_file (last_state (run basic [glazed "Mona" "Crystal"] crystal_document))
     = ["Mona * [Error]- No such Glass Class (Crystal)" ++ newline].
Proof. split; vm_compute; reflexivity. Qed.

Lemma glass_class_checks_previous_value_witness :
  is_manual basic glassClassSelector = false
  /\ createMissingClasses basic = false
  /\ GetObject (host before_glass_class)
       (column basic (glazed "Mona" "Crystal") glassClassSelector) <> 0
  /\ GetObject (host before_glass_class) (picture before_glass_class glassClass)
     = 0
  /\ picture (glass_class_field basic (glazed "Mona" "Crystal") before_glass_class)
     = picture before_glass_class
  /\ glass_message
       (glass_class_field basic (glazed "Mona" "Crystal") before_glass_class)
     = glass_message before_glass_class
       ++ format_message "- No such Glass Class"
            (column basic (glazed "Mona" "Crystal") glassClassSelector)
  /\ valid_picture
       (glass_class_field basic (glazed "Mona" "Crystal") before_glass_class)
     = false
  /\ host (glass_class_field basic (glazed "Mona" "Crystal") before_glass_class)
     = host before_glass_class.
Proof.
  assert (H1 : is_manual basic glassClassSelector = false)
    by (vm_compute; reflexivity).
  assert (H2 : createMissingClasses basic = false) by reflexivity.
  assert (H3 : GetObject (host before_glass_class)
                 (column basic (glazed "Mona" "Crystal") glassClassSelector)
               <> 0) by (vm_compute; discriminate).
  assert (H4 : GetObject (host before_glass_class)
                 (picture before_glass_class glassClass) = 0)
    by (vm_compute; reflexivity).
  exact (conj H1 (conj H2 (conj H3 (conj H4
           (glass_class_checks_previous_value basic (glazed "Mona" "Crystal")
              before_glass_class H1 H2 H3 H4))))).
Defined.

(** ** C7: a glass class that is missing *)

(** Two pictures under glass of two classes the document does not have, with
    [createMissingClasses] set. ["Tinted"] is created for the first row. The
    second row finds [glassClass == "Tinted"], which now exists, and takes
    ["Clear"] without creating it: [NameClass] was called for ["Tinted"] and
    for the active class only, and the document has no class ["Clear"]. *)
Lemma second_glass_class_is_not_created :
  map (shown [pictureName; glassClass])
    (fst (run creating [glazed "Mona" "Tinted"; glazed "Lisa" "Clear"]
            new_document))
  = [[VStr "Mona"; VStr "Tinted"]; [VStr "Lisa"; VStr "Clear"]]
  /\ named (host (last_state
                    (run creating [glazed "Mona" "Tinted"; glazed "Lisa" "Clear"]
                       new_document)))
     = [VStr "Tinted"; VStr "None"]
  /\ GetObject
       (host (last_state
                (run creating [glazed "Mona" "Tinted"; glazed "Lisa" "Clear"]
                   new_document)))
       (VStr "Clear") = 0
  /\ log_file (last_state
                 (run creating [glazed "Mona" "Tinted"; glazed "Lisa" "Clear"]
                    new_document)) = [].
Proof. repeat split; vm_compute; reflexivity. Qed.

Lemma glass_class_not_created_witness :
  is_manual creating glassClassSelector = false
  /\ createMissingClasses creating = true
  /\ GetObject (host after_tinted)
       (column creating (glazed "Lisa" "Clear") glassClassSelector) = 0
  /\ GetObject (host after_tinted) (picture after_tinted glassClass) <> 0
  /\ host (glass_class_field creating (glazed "Lisa" "Clear") after_tinted)
     = host after_tinted
  /\ GetObject
       (host (glass_class_field creating (glazed "Lisa" "Clear") after_tinted))
       (column creating (glazed "Lisa" "Clear") glassClassSelector) = 0
  /\ picture (glass_class_field creating (glazed "Lisa" "Clear") after_tinted)
       glassClass
     = column creating (glazed "Lisa" "Clear") glassClassSelector
  /\ valid_picture
       (glass_class_field creating (glazed "Lisa" "Clear") after_tinted)
     = valid_picture after_tinted
  /\ glass_message
       (glass_class_field creating (glazed "Lisa" "Clear") after_tinted)
     = glass_message after_tinted.
Proof.
  assert (H1 : is_manual creating glassClassSelector = false)
    by (vm_compute; reflexivity).
  assert (H2 : createMissingClasses creating = true) by reflexivity.
  assert (H3 : GetObject (host after_tinted)
                 (column creating (glazed "Lisa" "Clear") glassClassSelector)
               = 0) by (vm_compute; reflexivity).
  assert (H4 : GetObject (host after_tinted) (picture after_tinted glassClass)
               <> 0) by (vm_compute; discriminate).
  exact (conj H1 (conj H2 (conj H3 (conj H4
           (glass_class_not_created creating (glazed "Lisa" "Clear")
              after_tinted H1 H2 H3 H4))))).
Defined.

(** ** C8: the report of [zeros] *)

(** [zeros] has a frame and none of its sizes: one line is written for it,
    its record has the empty name, and the next row is processed. *)
Lemma invalid_row_then_next_row :
  map (shown [pictureName; withFrame]) (fst (run basic [zeros; lisa] new_document))
  = [[VStr ""; VStr "True"]; [VStr "Lisa"; VStr "False"]]
  /\ length (log_file (last_state (run basic [zeros; lisa] new_document)))
     = 1%nat
  /\ nth 0 (log_file (last_state (run basic [zeros; lisa] new_document))) ""
     = "Zero * [Error]- Invalid Frame Width (None)"
       ++ "- Invalid Frame Height (None)- Invalid Frame Depth (None)"
       ++ "- No such Frame Class (None)- Invalid Frame Texture Scale (None)"
       ++ "- Invalid Frame Texture Rotation (None)" ++ newline.
Proof. repeat split; vm_compute; reflexivity. Qed.


(** ** C9: a manual image position that is no number *)



(** ** C10: the metadata of two rows *)

(** After ["A"] and ["B"] the record holds the title and the year of ["B"]. *)
Lemma metadata_of_the_last_row :
  map (pictureRecord
         (last_state
            (run importing
               [titled "A" "Dawn" (VFloat (PyFloat false 18895 1));
                titled "B" "Dusk" VNone] new_document)))
    [artworkTitle; artworkCreationDate]
  = [VStr "Dusk"; VStr "Unknown"]
  /\ map (pictureRecord
            (last_state
               (run importing
                  [titled "A" "Dawn" (VFloat (PyFloat false 18895 1))]
                  new_document)))
       [artworkTitle; artworkCreationDate]
     = [VStr "Dawn"; VStr "1889"].
Proof. split; vm_compute; reflexivity. Qed.

Lemma metadata_goes_to_the_shared_record_witness :
  String.eqb (metaImportMetadata importing) "True" = true
  /\ unnamed importing (titled "B" "Dusk" VNone) = false
  /\ rows_loop importing
       ([titled "A" "Dawn" (VFloat (PyFloat false 18895 1))]
        ++ [titled "B" "Dusk" VNone]) (start new_document)
     = (fst two_titles, Ok (last_state two_titles))
  /\ (forall e0 : Env document,
        picture (metadata_section importing (titled "B" "Dusk" VNone) e0)
        = picture e0)
  /\ exists ys_pre e1,
      rows_loop importing [titled "A" "Dawn" (VFloat (PyFloat false 18895 1))]
        (start new_document) = (ys_pre, Ok e1)
      /\ fst two_titles = (ys_pre ++ [picture (last_state two_titles)])%list
      /\ forall rf,
          pictureRecord (last_state two_titles) rf
          = metadata_value importing (titled "B" "Dusk" VNone) rf
              (pictureRecord e1 rf) (picture (last_state two_titles)).
Proof.
  assert (H1 : String.eqb (metaImportMetadata importing) "True" = true)
    by reflexivity.
  assert (H2 : unnamed importing (titled "B" "Dusk" VNone) = false)
    by (vm_compute; reflexivity).
  assert (H3 : rows_loop importing
                 ([titled "A" "Dawn" (VFloat (PyFloat false 18895 1))]
                  ++ [titled "B" "Dusk" VNone]) (start new_document)
               = (fst two_titles, Ok (last_state two_titles)))
    by (vm_compute; reflexivity).
  exact (conj H1 (conj H2 (conj H3
           (metadata_goes_to_the_shared_record importing
              [titled "A" "Dawn" (VFloat (PyFloat false 18895 1))]
              (titled "B" "Dusk" VNone) (start new_document)
              (fst two_titles) (last_state two_titles) H1 H2 H3)))).
Defined.

(** ** Runs of the further properties *)

Import Spreadsheet.

Lemma yielded_record_count_witness :
  get_worksheet_rows basic true (Some gallery_rows) (start new_document)
  = (fst (run basic gallery_rows new_document),
     Ok (last_state (run basic gallery_rows new_document)))
  /\ length (fst (run basic gallery_rows new_document))
     = (length (fetched basic true (Some gallery_rows))
        + length (filter (fun row => unnamed basic row = true)
                    (fetched basic true (Some gallery_rows))))%nat.
Proof.
  assert (H : get_worksheet_rows basic true (Some gallery_rows)
                (start new_document)
              = (fst (run basic gallery_rows new_document),
                 Ok (last_state (run basic gallery_rows new_document))))
    by (vm_compute; reflexivity).
  exact (conj H
           (yielded_record_count basic true (Some gallery_rows)
              (start new_document) (fst (run basic gallery_rows new_document))
              (last_state (run basic gallery_rows new_document)) H)).
Defined.

Lemma host_untouched_without_creation_witness :
  createMissingClasses basic = false
  /\ host (final (snd (get_worksheet_rows basic true (Some [gilded; mona])
                         (start new_document))))
     = host (start new_document).
Proof.
  assert (H : createMissingClasses basic = false) by reflexivity.
  exact (conj H
           (host_untouched_without_creation basic true (Some [gilded; mona])
              (start new_document) H)).
Defined.

Lemma metadata_record_untouched_when_off_witness :
  String.eqb (metaImportMetadata basic) "True" = false
  /\ pictureRecord
       (final (snd (get_worksheet_rows basic true
                      (Some [titled "A" "Dawn" VNone]) (start new_document))))
     = pictureRecord (start new_document).
Proof.
  assert (H : String.eqb (metaImportMetadata basic) "True" = false)
    by reflexivity.
  exact (conj H
           (metadata_record_untouched_when_off basic true
              (Some [titled "A" "Dawn" VNone]) (start new_document) H)).
Defined.

Lemma locals_do_not_carry_over_witness :
  picture (start new_document) = picture after_failure
  /\ pictureRecord (start new_document) = pictureRecord after_failure
  /\ host (start new_document) = host after_failure
  /\ log_file (start new_document) = log_file after_failure
  /\ row_step basic mona (start new_document) = row_step basic mona after_failure.
Proof.
  assert (H1 : picture (start new_document) = picture after_failure)
    by reflexivity.
  assert (H2 : pictureRecord (start new_document) = pictureRecord after_failure)
    by reflexivity.
  assert (H3 : host (start new_document) = host after_failure) by reflexivity.
  assert (H4 : log_file (start new_document) = log_file after_failure)
    by reflexivity.
  exact (conj H1 (conj H2 (conj H3 (conj H4
           (locals_do_not_carry_over basic mona (start new_document)
              after_failure H1 H2 H3 H4))))).
Defined.

Lemma first_raising_row_stops_the_loop_witness :
  existsb (raises thickness_column) [mona; lisa] = false
  /\ raises thickness_column sevens = true
  /\ exists ys e1 e',
      rows_loop thickness_column [mona; lisa] (start new_document) = (ys, Ok e1)
      /\ rows_loop thickness_column ([mona; lisa] ++ sevens :: [nameless])
           (start new_document)
         = (ys, Raise AttributeError e')
      /\ log_file e' = log_file e1.
Proof.
  assert (H1 : existsb (raises thickness_column) [mona; lisa] = false)
    by (vm_compute; reflexivity).
  assert (H2 : raises thickness_column sevens = true)
    by (vm_compute; reflexivity).
  exact (conj H1 (conj H2
           (first_raising_row_stops_the_loop thickness_column [mona; lisa]
              sevens [nameless] (start new_document) H1 H2))).
Defined.

Lemma empty_name_marks_failed_rows_witness :
  row_step basic sevens (start new_document)
  = (fst (row_step basic sevens (start new_document)),
     Ok (final (snd (row_step basic sevens (start new_document)))))
  /\ (picture (final (snd (row_step basic sevens (start new_document))))
        pictureName = VStr ""
      <-> unnamed basic sevens = true
          \/ valid_picture (final (snd (row_step basic sevens (start new_document))))
             = false)
  /\ (picture (final (snd (row_step basic sevens (start new_document))))
        pictureName = VStr ""
      \/ picture (final (snd (row_step basic sevens (start new_document))))
           pictureName
         = to_string (column basic sevens imageTextureSelector)).
Proof.
  assert (H : row_step basic sevens (start new_document)
              = (fst (row_step basic sevens (start new_document)),
                 Ok (final (snd (row_step basic sevens (start new_document))))))
    by (vm_compute; reflexivity).
  exact (conj H
           (empty_name_marks_failed_rows basic sevens (start new_document)
              (fst (row_step basic sevens (start new_document)))
              (final (snd (row_step basic sevens (start new_document)))) H)).
Defined.

Lemma picture_without_components_is_valid_witness :
  unnamed basic bare = false
  /\ row_step basic bare (start new_document)
     = (fst (row_step basic bare (start new_document)),
        Ok (final (snd (row_step basic bare (start new_document)))))
  /\ (forall c,
        is_str (picture (final (snd (row_step basic bare (start new_document))))
                  (flag_of c)) "True" = false)
  /\ valid_picture (final (snd (row_step basic bare (start new_document))))
     = true
  /\ log_file (final (snd (row_step basic bare (start new_document))))
     = log_file (start new_document)
  /\ picture (final (snd (row_step basic bare (start new_document))))
       pictureName
     = to_string (column basic bare imageTextureSelector).
Proof.
  assert (H1 : unnamed basic bare = false) by (vm_compute; reflexivity).
  assert (H2 : row_step basic bare (start new_document)
               = (fst (row_step basic bare (start new_document)),
                  Ok (final (snd (row_step basic bare (start new_document))))))
    by (vm_compute; reflexivity).
  assert (H3 : forall c,
             is_str (picture
                       (final (snd (row_step basic bare (start new_document))))
                       (flag_of c)) "True" = false)
    by (intros []; vm_compute; reflexivity).
  exact (conj H1 (conj H2 (conj H3
           (picture_without_components_is_valid basic bare (start new_document)
              (fst (row_step basic bare (start new_document)))
              (final (snd (row_step basic bare (start new_document))))
              H1 H2 H3)))).
Defined.

Lemma valid_row_has_its_own_image_fields_witness :
  unnamed basic mona = false
  /\ row_step basic mona after_mona
     = (fst (row_step basic mona after_mona),
        Ok (final (snd (row_step basic mona after_mona))))
  /\ valid_picture (final (snd (row_step basic mona after_mona))) = true
  /\ is_str (picture (final (snd (row_step basic mona after_mona))) withImage)
       "True" = true
  /\ exists w h p,
      validated (column basic mona imageWidthSelector) = Some w
      /\ validated (column basic mona imageHeightSelector) = Some h
      /\ validated (manual_or_column basic mona imagePositionSelector
                      imagePosition) = Some p
      /\ picture (final (snd (row_step basic mona after_mona))) imageWidth
         = VStr (str_number (round3 w))
      /\ picture (final (snd (row_step basic mona after_mona))) imageHeight
         = VStr (str_number (round3 h))
      /\ picture (final (snd (row_step basic mona after_mona))) imagePosition
         = VStr (str_number (round3 p)).
Proof.
  assert (H1 : unnamed basic mona = false) by (vm_compute; reflexivity).
  assert (H2 : row_step basic mona after_mona
               = (fst (row_step basic mona after_mona),
                  Ok (final (snd (row_step basic mona after_mona)))))
    by (vm_compute; reflexivity).
  assert (H3 : valid_picture (final (snd (row_step basic mona after_mona)))
               = true)
    by (vm_compute; reflexivity).
  assert (H4 : is_str (picture (final (snd (row_step basic mona after_mona)))
                         withImage) "True" = true)
    by (vm_compute; reflexivity).
  exact (conj H1 (conj H2 (conj H3 (conj H4
           (valid_row_has_its_own_image_fields basic mona after_mona
              (fst (row_step basic mona after_mona))
              (final (snd (row_step basic mona after_mona)))
              H1 H2 H3 H4))))).
Defined.

Lemma class_reference_rule_witness :
  is_manual creating frameClassSelector = false
  /\ (let cell := column creating gilded frameClassSelector in
      let e' := class_field frameClassSelector frameClass frame_buffer
                  "- No such Frame Class" creating gilded (start new_document) in
      if GetObject (host (start new_document)) cell =? 0 then
        if createMissingClasses creating then
          host e'
          = NameClass (NameClass (host (start new_document)) cell)
              (VStr (ActiveClass (host (start new_document))))
          /\ ActiveClass (host e') = ActiveClass (host (start new_document))
          /\ picture e' frameClass = cell
          /\ valid_picture e' = valid_picture (start new_document)
          /\ message frame_buffer e' = message frame_buffer (start new_document)
        else
          host e' = host (start new_document)
          /\ picture e' = picture (start new_document)
          /\ valid_picture e' = false
          /\ message frame_buffer e'
             = message frame_buffer (start new_document)
               ++ format_message "- No such Frame Class" cell
      else e' = assign frameClass cell (start new_document)).
Proof.
  assert (H : is_manual creating frameClassSelector = false)
    by (vm_compute; reflexivity).
  exact (conj H
           (class_reference_rule frameClassSelector frameClass frame_buffer
              "- No such Frame Class" creating gilded (start new_document) H)).
Defined.

Lemma symbol_folder_from_text_witness :
  String.eqb (symbolCreateSymbol symbols) "True" = true
  /\ is_manual symbols symbolFolderSelector = false
  /\ column symbols (filed "Mona" "East  Wing" VNone) symbolFolderSelector
     = VStr "East  Wing"
  /\ has_whitespace (folder_name "East  Wing") = false
  /\ (String.length (folder_name "East  Wing") <= String.length "East  Wing")%nat
  /\ symbol_section symbols (filed "Mona" "East  Wing" VNone)
       (start new_document)
     = Ok (if String.eqb "East  Wing" ""
           then assign createSymbol (VStr "True") (start new_document)
           else assign symbolFolder (VStr (folder_name "East  Wing" ++ " Folder"))
                  (assign createSymbol (VStr "True") (start new_document))).
Proof.
  assert (H1 : String.eqb (symbolCreateSymbol symbols) "True" = true)
    by reflexivity.
  assert (H2 : is_manual symbols symbolFolderSelector = false)
    by (vm_compute; reflexivity).
  assert (H3 : column symbols (filed "Mona" "East  Wing" VNone)
                 symbolFolderSelector = VStr "East  Wing")
    by (vm_compute; reflexivity).
  exact (conj H1 (conj H2 (conj H3
           (symbol_folder_from_text symbols (filed "Mona" "East  Wing" VNone)
              (start new_document) "East  Wing" H1 H2 H3)))).
Defined.

Lemma class_and_symbol_of_a_named_row_witness :
  unnamed symbols (filed "Mona" "Hall" (VInt 7)) = false
  /\ row_step symbols (filed "Mona" "Hall" (VInt 7)) (start new_document)
     = (fst (row_step symbols (filed "Mona" "Hall" (VInt 7)) (start new_document)),
        Ok (final (snd (row_step symbols (filed "Mona" "Hall" (VInt 7))
                          (start new_document)))))
  /\ picture (final (snd (row_step symbols (filed "Mona" "Hall" (VInt 7))
                            (start new_document)))) pictureClass
     = (if String.eqb (classAssignPictureClass symbols) "True"
        then manual_or_column symbols (filed "Mona" "Hall" (VInt 7))
               classClassPictureSelector pictureClass
        else picture (start new_document) pictureClass)
  /\ picture (final (snd (row_step symbols (filed "Mona" "Hall" (VInt 7))
                            (start new_document)))) createSymbol
     = VStr (if String.eqb (symbolCreateSymbol symbols) "True"
             then "True" else "False")
  /\ (String.eqb (symbolCreateSymbol symbols) "True" = false ->
      picture (final (snd (row_step symbols (filed "Mona" "Hall" (VInt 7))
                             (start new_document)))) symbolFolder
      = VStr "").
Proof.
  assert (H1 : unnamed symbols (filed "Mona" "Hall" (VInt 7)) = false)
    by (vm_compute; reflexivity).
  assert (H2 : row_step symbols (filed "Mona" "Hall" (VInt 7))
                 (start new_document)
               = (fst (row_step symbols (filed "Mona" "Hall" (VInt 7))
                         (start new_document)),
                  Ok (final (snd (row_step symbols (filed "Mona" "Hall" (VInt 7))
                                    (start new_document))))))
    by (vm_compute; reflexivity).
  exact (conj H1 (conj H2
           (class_and_symbol_of_a_named_row symbols
              (filed "Mona" "Hall" (VInt 7)) (start new_document)
              (fst (row_step symbols (filed "Mona" "Hall" (VInt 7))
                      (start new_document)))
              (final (snd (row_step symbols (filed "Mona" "Hall" (VInt 7))
                             (start new_document))))
              H1 H2))).
Defined.

Lemma connect_keeps_the_workbook_live_witness :
  live opened
  /\ exists db',
      connect (workbook_settings "lost.xlsx") opened
      = Return (db', connected db')
      /\ live db'
      /\ (connected db' = true
          <-> excelFileName (workbook_settings "lost.xlsx") <> ""
              /\ exists w,
                  driver_connect
                    (connection_string
                       (excelFileName (workbook_settings "lost.xlsx")))
                  = inl w
                  /\ workbook db' = Some w)
      /\ closed db'
         = (closed opened
            ++ (if connected opened then option_list (workbook opened)
                else []))%list.
Proof.
  assert (H : live opened) by (intros _; exists gallery; reflexivity).
  exact (conj H
           (connect_keeps_the_workbook_live (workbook_settings "lost.xlsx")
              opened H)).
Defined.

Lemma readers_after_failed_connect_witness :
  connect (workbook_settings "lost.xlsx") new_database = Return (refused, false)
  /\ get_worksheets refused = Return None
  /\ get_columns (workbook_settings "lost.xlsx") refused = Return None
  /\ get_criteria_values (workbook_settings "lost.xlsx") refused = Return None
  /\ get_worksheet_row_count (workbook_settings "lost.xlsx") refused
     = Return 0%nat
  /\ worksheet_rows (workbook_settings "lost.xlsx") refused (start new_document)
     = Return ([], Ok (start new_document)).
Proof.
  assert (H : connect (workbook_settings "lost.xlsx") new_database
              = Return (refused, false))
    by (vm_compute; reflexivity).
  exact (conj H
           (readers_after_failed_connect (workbook_settings "lost.xlsx")
              new_database refused (start new_document) H)).
Defined.

Lemma records_yielded_and_row_count_witness :
  get_worksheet_row_count (workbook_settings "gallery.xlsx") opened
  = Return 3%nat
  /\ worksheet_rows (workbook_settings "gallery.xlsx") opened
       (start new_document)
     = Return (fst (run basic gallery_rows new_document),
               Ok (last_state (run basic gallery_rows new_document)))
  /\ 3%nat = length (selected_rows (workbook_settings "gallery.xlsx") opened)
  /\ length (fst (run basic gallery_rows new_document))
     = (3 + length
              (filter
                 (fun row =>
                    unnamed (import_settings (workbook_settings "gallery.xlsx"))
                      row = true)
                 (selected_rows (workbook_settings "gallery.xlsx") opened)))%nat.
Proof.
  assert (H1 : get_worksheet_row_count (workbook_settings "gallery.xlsx") opened
               = Return 3%nat)
    by (vm_compute; reflexivity).
  assert (H2 : worksheet_rows (workbook_settings "gallery.xlsx") opened
                 (start new_document)
               = Return (fst (run basic gallery_rows new_document),
                         Ok (last_state (run basic gallery_rows new_document))))
    by (vm_compute; reflexivity).
  exact (conj H1 (conj H2
           (records_yielded_and_row_count (workbook_settings "gallery.xlsx")
              opened (start new_document) 3%nat
              (fst (run basic gallery_rows new_document))
              (last_state (run basic gallery_rows new_document)) H1 H2))).
Defined.
